(** * Tow-truck booking system: pricing, booking orchestration, admin queries

    A shallow embedding of
    - [src/pages/BookingForm.jsx]: calculateTotalCost, validateForm,
      handleBookingProcess;
    - [src/components/booking/BookingForm.jsx]: the yup [schema];
    - the admin data layer kept with [src/hooks/useBookings.js]:
      handleSupabaseError, getUsers, getBookings, createBooking,
      updateBooking, deleteBooking, deleteUser;
    together with the properties the specification states about them.

    JavaScript objects are finite maps from property names to values;
    distances and prices are binary64 floats, counters, positions and
    identifiers are integers; and the effects of the asynchronous code
    (store requests, gateway calls, toasts, navigation, timers) are threaded
    through an explicit [World]. *)

From Stdlib Require Import ZArith String Ascii Floats.
From stdpp Require Import base option list gmap strings pretty sorting.

Local Open Scope string_scope.

(** ** Pricing calculator *)

Module Pricing.

(** The destructured result of [getTowTruckPricing]: two JavaScript
    numbers, that is binary64 floats. *)
Record Rate : Type := mkRate { perKm : float; basePrice : float }.

(** What evaluating [calculateTotalCost] can give: a number, or the
    [TypeError] of destructuring [undefined]. *)
Inductive Completion : Type :=
| Returns (total : float)
| ThrowsTypeError.

Section Calculator.

(** [../utils/towTruckSelection] is imported by the page but is not
    part of the sources at hand: its two functions are parameters.  A
    category is a string; a lookup that finds no rate gives
    [undefined], here [None]. *)
Variable getTowTruckType : string -> string.
Variable getTowTruckPricing : string -> option Rate.

(** [calculateTotalCost], with the component state it closes over
    ([formData.vehicleSize] and [distance]) made explicit. *)
Definition calculateTotalCost (vehicleSize : string) (distance : float)
  : Completion :=
  let towTruckType := getTowTruckType vehicleSize in
  match getTowTruckPricing towTruckType with
  | Some r => Returns (basePrice r + (distance * perKm r * 2))%float
  | None => ThrowsTypeError
  end.

End Calculator.

(** Modelled from the spec: the rate table of [utils/towTruckSelection]
    is missing; the one entry the specification gives is size "Medium",
    category "Standard", basePrice 50, perKm 2.  Every other size is left
    unmapped. *)
Definition specTowTruckType (vehicleSize : string) : string :=
  if String.eqb vehicleSize "Medium" then "Standard" else "".

(** Modelled from the spec: the rate of category "Standard" (see
    [specTowTruckType]); no other category is given. *)
Definition specTowTruckPricing (towTruckType : string) : option Rate :=
  if String.eqb towTruckType "Standard"
  then Some (mkRate 2%float 50%float)
  else None.

End Pricing.

(** ** JavaScript values *)

Module Js.

(** The values that occur in form data and table rows. *)
Inductive Val : Type :=
| VUndefined
| VNull
| VBool (b : bool)
| VNum (x : float)
| VId (n : Z)              (* an identifier issued by the store *)
| VStr (s : string)
| VDate (ms : Z)           (* a [Date]: milliseconds since the epoch *)
| VIsoString (ms : Z).     (* [date.toISOString()] of that instant *)

(** An object literal [{...base, k1: v1, ..., kn: vn}]: later properties
    overwrite earlier ones. *)
Definition spread (base : gmap string Val) (props : list (string * Val))
  : gmap string Val :=
  foldl (fun o kv => <[kv.1 := kv.2]> o) base props.

(** Thrown values: [new Error(m)], a [TypeError] raised by the engine, or an
    error object of the store client thrown as it is.  All the code ever
    reads of them is [.message]. *)
Inductive Exn : Type :=
| Error (message : string)
| TypeError (message : string)
| PostgrestError (message : string).

Definition message (e : Exn) : string :=
  match e with
  | Error m | TypeError m | PostgrestError m => m
  end.

(** [a || b] on strings: the empty string is falsy. *)
Definition or_else (a b : string) : string :=
  if String.eqb a "" then b else a.

End Js.

(** ** The hosted store, the gateway and the other collaborators *)

Module Backend.
Import Js.

Inductive Table : Type := Users | Services | Bookings.

(** A stored row: the identifier and creation time the server issues, and
    the columns the client sent. *)
Record Row : Type := mkRow { id : Z; created_at : Z; cols : gmap string Val }.

Record Store : Type :=
  mkStore { users : list Row; services : list Row; bookings : list Row }.

Definition from (t : Table) (s : Store) : list Row :=
  match t with
  | Users => users s
  | Services => services s
  | Bookings => bookings s
  end.

Definition put (t : Table) (rows : list Row) (s : Store) : Store :=
  match t with
  | Users => mkStore rows (services s) (bookings s)
  | Services => mkStore (users s) rows (bookings s)
  | Bookings => mkStore (users s) (services s) rows
  end.

Inductive Column : Type := ColId | ColCreatedAt.

Definition column (c : Column) (r : Row) : Z :=
  match c with ColId => id r | ColCreatedAt => created_at r end.

(** The requests the query builder of the store client is used for:
    [from(t).select(columns, {count}).order(c, {ascending}).range(a, b)],
    [from(t).insert(values).select(..)], [from(t).update(values).eq(c, v)
    .select()], [from(t).delete().eq(c, v)]. *)
Inductive Request : Type :=
| Select (t : Table) (columns : string) (count_exact : bool)
         (order : option (Column * bool)) (range : option (Z * Z))
| Insert (t : Table) (values : list (gmap string Val))
         (returning : option string)
| Update (t : Table) (values : gmap string Val) (eq : Column * Z)
         (returning : option string)
| Delete (t : Table) (eq : Column * Z).

Record PgError : Type := mkPgError { pg_message : string }.

(** What awaiting a request resolves to: [{ data, error, count }]. *)
Record Reply : Type :=
  mkReply { data : option (list Row); error : option PgError;
            count : option Z }.

(** What [.single()] turns a reply into. *)
Record SingleReply : Type :=
  mkSingle { single_data : option Row; single_error : option PgError }.

(** Navigation state handed to the router. *)
Inductive NavState : Type :=
| FromPage (from_path : string)
| BookingState (bookingData : gmap string Val) (isTestMode : bool).

(** Everything the code does to the outside, in the order it happens.  The
    description of a toast is kept as the parts of its template literal. *)
Inductive Event : Type :=
| EvRequest (r : Request)
| EvConfirmPayment (return_url : string)
| EvAdminNotification (formData : gmap string Val) (totalCost : float)
                      (isTestMode : bool)
| EvNavigate (to : string) (state : NavState)
| EvToast (title : string) (description : list Val) (status : string)
| EvConsoleError (label : string) (e : Exn)
| EvConsoleWarn (label : string)
| EvSetIsLoading (b : bool)
| EvPreventDefault
| EvSleep (ms : Z).

(** The answer of [stripe.confirmPayment]: [{ error }], [error] possibly
    undefined. *)
Record StripeError : Type := mkStripeError { stripe_message : string }.

(** The behaviour of the collaborators, fixed for a run: which store
    requests fail (by their position in the sequence of requests) and with
    what message, what the gateway answers, whether the notification
    helper rejects, the identifiers [uuidv4] draws, the service number the
    store prints for an identifier, and [window.location.origin]. *)
Record Env : Type :=
  mkEnv { store_fault : nat -> option string;
          confirm_reply : option StripeError;
          notify_reply : option string;
          uuid_at : nat -> string;
          number_of : Z -> string;
          origin : string }.

Record World : Type :=
  mkWorld { db : Store;
            next_id : Z;
            now : Z;
            requests : nat;
            uuids_drawn : nat;
            trace : list Event }.

Definition emit (e : Event) (w : World) : World :=
  mkWorld (db w) (next_id w) (now w) (requests w) (uuids_drawn w)
          (trace w ++ [e]).

(** ** Computations: a state and exception monad over [World] *)

Inductive Completion (A : Type) : Type :=
| Normal (a : A)
| Throw (e : Exn).
Arguments Normal {A} a.
Arguments Throw {A} e.

Definition M (A : Type) : Type := World -> Completion A * World.

Definition ret {A} (a : A) : M A := fun w => (Normal a, w).

Definition bind {A B} (m : M A) (k : A -> M B) : M B :=
  fun w => match m w with
           | (Normal a, w1) => k a w1
           | (Throw e, w1) => (Throw e, w1)
           end.

Definition throw {A} (e : Exn) : M A := fun w => (Throw e, w).

(** [try { body } catch (error) { handler }]. *)
Definition try_catch {A} (body : M A) (handler : Exn -> M A) : M A :=
  fun w => match body w with
           | (Normal a, w1) => (Normal a, w1)
           | (Throw e, w1) => handler e w1
           end.

(** [try { body } finally { cleanup }], for a cleanup that cannot throw. *)
Definition finally {A} (body : M A) (cleanup : World -> World) : M A :=
  fun w => let '(r, w1) := body w in (r, cleanup w1).

Definition effect (e : Event) : M unit := fun w => (Normal tt, emit e w).

(** ** What the store does with a request

    The store is a collaborator, not code of the repository: this is the
    contract the specification gives it (rows addressed by a server-issued
    identifier, a [services] insert printing a service number, atomic
    single-row operations).  Column projection is not modelled: a reply
    holds the stored rows. *)

Definition ordered (c : Column) (ascending : bool) : relation Row :=
  fun a b => if ascending then (column c a <= column c b)%Z
             else (column c b <= column c a)%Z.

#[global] Instance ordered_dec c ascending : RelDecision (ordered c ascending).
Proof. intros a b. unfold ordered. destruct ascending; apply _. Defined.

Definition order_by (order : option (Column * bool)) (rows : list Row)
  : list Row :=
  match order with
  | None => rows
  | Some (c, ascending) => merge_sort (ordered c ascending) rows
  end.

(** [range(a, b)]: the rows at positions [a] to [b], both included. *)
Definition range_slice (a b : Z) (rows : list Row) : list Row :=
  take (Z.to_nat (b - a + 1)) (drop (Z.to_nat a) rows).

Definition matches (eq : Column * Z) (r : Row) : Prop :=
  column eq.1 r = eq.2.

#[global] Instance matches_dec eq r : Decision (matches eq r).
Proof. unfold matches. apply _. Defined.

Fixpoint insert_rows (env : Env) (t : Table) (values : list (gmap string Val))
  (fresh : Z) (time : Z) : list Row :=
  match values with
  | [] => []
  | o :: rest =>
      let o' := match t with
                | Services => <["service_number" := VStr (number_of env fresh)]> o
                | _ => o
                end in
      mkRow fresh time o' :: insert_rows env t rest (fresh + 1) time
  end.

Definition set_db (s : Store) (fresh : Z) (w : World) : World :=
  mkWorld s fresh (now w) (requests w) (uuids_drawn w) (trace w).

Definition exec (env : Env) (req : Request) (w : World) : Reply * World :=
  match req with
  | Select t _ count_exact order range =>
      let all := from t (db w) in
      let sorted := order_by order all in
      let page := match range with
                  | None => sorted
                  | Some (a, b) => range_slice a b sorted
                  end in
      (mkReply (Some page) None
               (if count_exact then Some (Z.of_nat (length all)) else None),
       w)
  | Insert t values returning =>
      let created := insert_rows env t values (next_id w) (now w) in
      (mkReply (match returning with Some _ => Some created | None => None end)
               None None,
       set_db (put t (from t (db w) ++ created) (db w))
              (next_id w + Z.of_nat (length created)) w)
  | Update t values eq returning =>
      let patch r := if decide (matches eq r)
                     then mkRow (id r) (created_at r) (values ∪ cols r)
                     else r in
      let rows := patch <$> from t (db w) in
      (mkReply (match returning with
                | Some _ => Some (filter (matches eq) rows)
                | None => None
                end) None None,
       set_db (put t rows (db w)) (next_id w) w)
  | Delete t eq =>
      (mkReply None None None,
       set_db (put t (filter (fun r => ~ matches eq r) (from t (db w))) (db w))
              (next_id w) w)
  end.

(** Awaiting a request built on the client: it is sent (one more request,
    one more event), and answered with an error object when the request
    fails, with the store's reply otherwise.  The client does not throw. *)
Definition supabase (env : Env) (req : Request) : M Reply :=
  fun w =>
    let w1 := mkWorld (db w) (next_id w) (now w) (S (requests w))
                      (uuids_drawn w) (trace w ++ [EvRequest req]) in
    match store_fault env (requests w) with
    | Some msg => (Normal (mkReply None (Some (mkPgError msg)) None), w1)
    | None => let '(reply, w2) := exec env req w1 in (Normal reply, w2)
    end.

(** [.single()]: exactly one row, or an error. *)
Definition single (r : Reply) : SingleReply :=
  match error r with
  | Some e => mkSingle None (Some e)
  | None =>
      match data r with
      | Some [row] => mkSingle (Some row) None
      | _ => mkSingle None
               (Some (mkPgError
                  "JSON object requested, multiple (or no) rows returned"))
      end
  end.

(** [await new Promise(resolve => setTimeout(resolve, ms))]. *)
Definition sleep (ms : Z) : M unit :=
  fun w => (Normal tt,
            mkWorld (db w) (next_id w) (now w + Z.max 0 ms) (requests w)
                    (uuids_drawn w) (trace w ++ [EvSleep ms])).

Definition uuidv4 (env : Env) : M string :=
  fun w => (Normal (uuid_at env (uuids_drawn w)),
            mkWorld (db w) (next_id w) (now w) (requests w)
                    (S (uuids_drawn w)) (trace w)).

(** [stripe.confirmPayment({ elements, confirmParams: { return_url } })]:
    one call to the gateway, resolving to [{ error }]. *)
Definition confirmPayment (env : Env) (return_url : string)
  : M (option StripeError) :=
  fun w => (Normal (confirm_reply env), emit (EvConfirmPayment return_url) w).

(** [sendAdminNotification] of [../utils/adminNotification], which is not
    part of the sources at hand: a call to the notification channel whose
    promise resolves, or rejects with an [Error], as the environment says. *)
Definition sendAdminNotification (env : Env) (formData : gmap string Val)
  (totalCost : float) (isTestMode : bool) : M unit :=
  fun w =>
    let w1 := emit (EvAdminNotification formData totalCost isTestMode) w in
    match notify_reply env with
    | None => (Normal tt, w1)
    | Some msg => (Throw (Error msg), w1)
    end.

End Backend.


(** ** Admin query layer *)

Module Admin.
Import Js Backend.

Notation "x <- m ;; k" := (bind m (fun x => k))
  (at level 100, m at next level, right associativity).
Notation "m ;;; k" := (bind m (fun _ => k))
  (at level 100, right associativity).

(** The integer-valued numbers [Math.ceil] can give. *)
Inductive Number : Type :=
| Finite (n : Z)
| Infinity
| NegInfinity
| NaN.

(** [Math.ceil(count / limit)] for integers [count] and [limit]: the
    ceiling of the exact quotient, which is what binary64 gives as long as
    both operands stay below 2^53 in absolute value; a division by zero
    gives an infinity or NaN; the sign of a zero is not kept. *)
Definition ceil_quotient (count limit : Z) : Number :=
  if decide (limit = 0)%Z then
    if decide (count = 0)%Z then NaN
    else if decide (0 < count)%Z then Infinity else NegInfinity
  else Finite (- ((- count) / limit))%Z.

Definition maxRetries : nat := 3.

(** The loop of [handleSupabaseError].  [retries] is the counter of the
    source; [budget] bounds the iterations still possible and makes the
    recursion structural.  [None] is the [undefined] the function gives when
    the loop is left without a [return]. *)
Fixpoint retry_loop {A} (operation : M A) (entityName : string)
  (budget retries : nat) : M (option A) :=
  match budget with
  | O => ret None
  | S budget' =>
      if decide (retries < maxRetries) then
        try_catch
          (result <- operation ;; ret (Some result))
          (fun error =>
             effect (EvConsoleError
                       ("Supabase error (" ++ entityName ++ "):") error) ;;;
             let retries := S retries in
             if decide (retries = maxRetries) then
               throw (Error ("Failed after " ++ pretty maxRetries
                             ++ " attempts: " ++ message error))
             else
               sleep (1000 * Z.of_nat retries) ;;;
               retry_loop operation entityName budget' retries)
      else ret None
  end.

Definition handleSupabaseError {A} (operation : M A) (entityName : string)
  : M (option A) :=
  retry_loop operation entityName maxRetries 0.

(** The closures handed to [handleSupabaseError], one per operation. *)

Definition getUsers_operation (env : Env) : M (option (list Row)) :=
  r <- supabase env (Select Users "*" false None None) ;;
  match error r with
  | Some e => throw (Error ("Failed to fetch users: " ++ pg_message e))
  | None => ret (data r)
  end.

Definition getUsers (env : Env) : M (option (option (list Row))) :=
  handleSupabaseError (getUsers_operation env) "users".

(** The object [getBookings] returns. *)
Record Page : Type :=
  mkPage { page_data : list Row; page_count : option Z;
           totalPages : Number }.

Definition bookings_columns : string :=
  "id, status, payment_status, total_cost, pickup_datetime, user:users!bookings_user_id_fkey (id, email), service:services!bookings_service_id_fkey (id, name)".

Definition getBookings_operation (env : Env) (page limit : Z) : M Page :=
  let startIndex := ((page - 1) * limit)%Z in
  r <- supabase env
         (Select Bookings bookings_columns true (Some (ColCreatedAt, false))
                 (Some (startIndex, startIndex + limit - 1)%Z)) ;;
  match error r with
  | Some e =>
      effect (EvConsoleError "Error fetching bookings:"
                             (PostgrestError (pg_message e))) ;;;
      throw (Error ("Failed to fetch bookings: " ++ pg_message e))
  | None =>
      match data r with
      | None =>
          effect (EvConsoleWarn "No bookings data returned from Supabase") ;;;
          ret (mkPage [] (Some 0%Z) (Finite 0))
      | Some rows =>
          ret (mkPage rows (count r)
                      (ceil_quotient (default 0%Z (count r)) limit))
      end
  end.

(** [getBookings(page = 1, limit = 10)]: an argument left out takes its
    default. *)
Definition getBookings (env : Env) (page limit : option Z)
  : M (option Page) :=
  handleSupabaseError
    (getBookings_operation env (default 1%Z page) (default 10%Z limit))
    "bookings".

(** [data[0]]: a [TypeError] on [null], [undefined] on an empty array. *)
Definition first_of (d : option (list Row)) : M (option Row) :=
  match d with
  | None => throw (TypeError "Cannot read properties of null (reading '0')")
  | Some rows => ret (head rows)
  end.

Definition createBooking_operation (env : Env)
  (bookingData : gmap string Val) : M (option Row) :=
  r <- supabase env (Insert Bookings [bookingData] (Some "*")) ;;
  match error r with
  | Some e => throw (Error ("Failed to create booking: " ++ pg_message e))
  | None => first_of (data r)
  end.

Definition createBooking (env : Env) (bookingData : gmap string Val)
  : M (option (option Row)) :=
  handleSupabaseError (createBooking_operation env bookingData) "bookings".

Definition updateBooking_operation (env : Env) (id : Z)
  (bookingData : gmap string Val) : M (option Row) :=
  r <- supabase env (Update Bookings bookingData (ColId, id) (Some "*")) ;;
  match error r with
  | Some e => throw (Error ("Failed to update booking: " ++ pg_message e))
  | None => first_of (data r)
  end.

Definition updateBooking (env : Env) (id : Z) (bookingData : gmap string Val)
  : M (option (option Row)) :=
  handleSupabaseError (updateBooking_operation env id bookingData) "bookings".

(** The object [{ success: true }]. *)
Record Success : Type := mkSuccess { success : bool }.

Definition deleteBooking_operation (env : Env) (id : Z) : M Success :=
  r <- supabase env (Delete Bookings (ColId, id)) ;;
  match error r with
  | Some e => throw (Error ("Failed to delete booking: " ++ pg_message e))
  | None => ret (mkSuccess true)
  end.

Definition deleteBooking (env : Env) (id : Z) : M (option Success) :=
  handleSupabaseError (deleteBooking_operation env id) "bookings".

Definition deleteUser_operation (env : Env) (id : Z) : M Success :=
  r <- supabase env (Delete Users (ColId, id)) ;;
  match error r with
  | Some e => throw (Error ("Failed to delete user: " ++ pg_message e))
  | None => ret (mkSuccess true)
  end.

Definition deleteUser (env : Env) (id : Z) : M (option Success) :=
  handleSupabaseError (deleteUser_operation env id) "users".

(** *** Reading a trace: the rhythm of attempts and pauses *)

Inductive Beat : Type :=
| Attempt
| Pause (ms : Z).

Definition beats (t : list Event) : list Beat :=
  omap (fun e => match e with
                 | EvRequest _ => Some Attempt
                 | EvSleep ms => Some (Pause ms)
                 | _ => None
                 end) t.

(** The world in which the next attempt starts, after an attempt that threw
    [x] and was the [retries]-th to fail: the error is logged, then the
    loop sleeps. *)
Definition backed_off (entityName : string) (retries : nat) (x : Exn)
  (w : World) : World :=
  (sleep (1000 * Z.of_nat retries)
         (emit (EvConsoleError ("Supabase error (" ++ entityName ++ "):") x)
               w)).2.

(** An operation that throws [Error (prefix ++ msg)] when its request to the
    store fails with [msg], and touches nothing else. *)
Definition fails_with {A} (env : Env) (operation : M A) (prefix : string)
  : Prop :=
  forall w msg,
    store_fault env (requests w) = Some msg ->
    exists w1,
      operation w = (Throw (Error (prefix ++ msg)), w1)
      /\ db w1 = db w /\ requests w1 = S (requests w) /\ now w1 = now w
      /\ beats (trace w1) = (beats (trace w) ++ [Attempt])%list.

(** An operation that returns when its request to the store is answered. *)
Definition succeeds {A} (env : Env) (operation : M A) : Prop :=
  forall w,
    store_fault env (requests w) = None ->
    exists v w1,
      operation w = (Normal v, w1)
      /\ beats (trace w1) = (beats (trace w) ++ [Attempt])%list.

(** What the retry policy promises for a call [wrapped] around [operation],
    started in [w], once the first two attempts have failed: the third
    attempt starts in a world [w2] with the store as it was, three seconds
    later, after two attempts and pauses of one and two seconds; and the
    third attempt decides. *)
Definition retried {A} (env : Env) (operation : M A)
  (wrapped : M (option A)) (prefix : string) (w : World) : Prop :=
  exists w2,
    db w2 = db w
    /\ requests w2 = S (S (requests w))
    /\ now w2 = (now w + 3000)%Z
    /\ beats (trace w2)
       = (beats (trace w) ++ [Attempt; Pause 1000; Attempt; Pause 2000])%list
    /\ match store_fault env (S (S (requests w))) with
       | None =>
           exists v w3,
             operation w2 = (Normal v, w3)
             /\ wrapped w = (Normal (Some v), w3)
             /\ beats (trace w3) = (beats (trace w2) ++ [Attempt])%list
       | Some e3 =>
           exists w3,
             wrapped w
             = (Throw (Error ("Failed after 3 attempts: " ++ prefix ++ e3)),
                w3)
             /\ db w3 = db w
             /\ beats (trace w3) = (beats (trace w2) ++ [Attempt])%list
       end.

End Admin.

(** ** Booking orchestrator: [src/pages/BookingForm.jsx] *)

Module BookingPage.
Import Js Backend.

Notation "x <- m ;; k" := (bind m (fun x => k))
  (at level 100, m at next level, right associativity).
Notation "m ;;; k" := (bind m (fun _ => k))
  (at level 100, right associativity).

Record User : Type := mkUser { user_id : string }.
Record Session : Type := mkSession { user : option User }.

(** The state and hooks [handleBookingProcess] closes over.  [stripe] and
    [elements] say whether [useStripe()] and [useElements()] have given an
    object rather than [null]. *)
Record Component : Type :=
  mkComponent { formData : gmap string Val;
                distance : float;
                totalCost : float;
                selectedTowTruck : string;
                isTestMode : bool;
                session : option Session;
                stripe : bool;
                elements : bool }.

(** [generateTestData()], with the [new Date()] it evaluates passed in. *)
Definition generateTestData (today : Z) : gmap string Val :=
  spread ∅
    [ ("serviceType", VStr "Tow");
      ("userName", VStr "Test User");
      ("phoneNumber", VStr "1234567890");
      ("vehicleBrand", VStr "Test Brand");
      ("vehicleModel", VStr "Test Model");
      ("vehicleColor", VStr "Red");
      ("licensePlate", VStr "TEST123");
      ("vehicleSize", VStr "Medium");
      ("pickupAddress", VStr "123 Test St, Test City");
      ("dropOffAddress", VStr "456 Example Ave, Sample Town");
      ("vehicleIssue", VStr "Test Issue");
      ("additionalDetails", VStr "This is a test booking");
      ("wheelsStatus", VStr "Wheels Turn");
      ("pickupDateTime", VDate today);
      ("paymentMethod", VStr "card") ].

(** [validateForm]: the body is a placeholder comment and [return true]. *)
Definition validateForm (c : Component) : bool := true.

(** Which exit [handleBookingProcess] took.  The JavaScript function gives
    [undefined] on every path; the exit is kept so that properties can name
    it, and every exit is also visible in the events of the [World]. *)
Inductive Outcome : Type :=
| NotValidated
| RedirectedToLogin
| Confirmed
| Failed (error : Exn).

Definition clock : M Z := fun w => (Normal (now w), w).

Definition status_of (isTestMode : bool) : Val :=
  VStr (if isTestMode then "test_mode" else "pending").

(** [session?.user?.id || 'test_user']. *)
Definition session_user_id (s : option Session) : string :=
  or_else (default "" (user_id <$> (s ≫= user))) "test_user".

(** A toast; [description] lists the parts of its template literal.  The
    constant [duration] and [isClosable] are left out. *)
Definition toast (title : string) (description : list Val) (status : string)
  : M unit :=
  effect (EvToast title description status).

(** The body of the [try] block. *)
Definition booking_try (env : Env) (c : Component) : M Outcome :=
  if negb (bool_decide (is_Some (session c))) && negb (isTestMode c) then
    effect (EvNavigate "/login" (FromPage "/booking")) ;;;
    ret RedirectedToLogin
  else if negb (stripe c) || negb (elements c) then
    throw (Error "Stripe has not been initialized")
  else
    stripeError <- confirmPayment env (origin env ++ "/confirmation") ;;
    match stripeError with
    | Some e => throw (Error (stripe_message e))
    | None =>
        dynamicKey <- uuidv4 env ;;
        r <- supabase env
               (Insert Services
                  [ spread ∅
                      [ ("user_id", VStr (session_user_id (session c)));
                        ("dynamic_key", VStr dynamicKey);
                        ("status", status_of (isTestMode c)) ] ]
                  (Some "id, service_number")) ;;
        let s := single r in
        match single_error s with
        | Some serviceError => throw (PostgrestError (pg_message serviceError))
        | None =>
            match single_data s with
            | None =>
                throw (TypeError
                         "Cannot read properties of null (reading 'id')")
            | Some serviceData =>
                today <- clock ;;
                let service_number :=
                  default VUndefined (cols serviceData !! "service_number") in
                let bookingData :=
                  spread (formData c)
                    [ ("distance", VNum (distance c));
                      ("totalCost", VNum (totalCost c));
                      ("towTruckType", VStr (selectedTowTruck c));
                      ("status", status_of (isTestMode c));
                      ("serviceId", VId (id serviceData));
                      ("serviceNumber", service_number);
                      ("dynamicKey", VStr dynamicKey);
                      ("createdAt", VIsoString today);
                      ("isTestMode", VBool (isTestMode c)) ] in
                r2 <- supabase env (Insert Bookings [bookingData] None) ;;
                match error r2 with
                | Some e => throw (PostgrestError (pg_message e))
                | None =>
                    sendAdminNotification env (formData c) (totalCost c)
                                          (isTestMode c) ;;;
                    toast (if isTestMode c then "Test Booking Successful"
                           else "Booking Successful")
                          [ VStr "Your tow service has been ";
                            VStr (if isTestMode c then "test " else "");
                            VStr "booked successfully. Service number: ";
                            service_number ]
                          "success" ;;;
                    effect (EvNavigate "/confirmation"
                              (BookingState bookingData (isTestMode c))) ;;;
                    ret Confirmed
                end
            end
        end
    end.

(** The [catch] block. *)
Definition booking_catch (error : Exn) : M Outcome :=
  effect (EvConsoleError "Booking error:" error) ;;;
  toast "Booking Failed"
        [ VStr (or_else (message error) "An unexpected error occurred") ]
        "error" ;;;
  ret (Failed error).

Definition handleBookingProcess (env : Env) (c : Component) : M Outcome :=
  effect EvPreventDefault ;;;
  if negb (validateForm c) then ret NotValidated
  else
    effect (EvSetIsLoading true) ;;;
    finally (try_catch (booking_try env c) booking_catch)
            (emit (EvSetIsLoading false)).

(** *** Reading a trace *)

Definition is_charge (e : Event) : bool :=
  match e with EvConfirmPayment _ => true | _ => false end.

(** Calls that leave the browser: the store, the gateway, the notification
    channel. *)
Definition is_network_call (e : Event) : bool :=
  match e with
  | EvRequest _ | EvConfirmPayment _ | EvAdminNotification _ _ _ => true
  | _ => false
  end.

Definition count_events (p : Event -> bool) (t : list Event) : nat :=
  length (filter (fun e => p e = true) t).

Definition charge_attempts (t : list Event) : nat := count_events is_charge t.

Definition network_calls (t : list Event) : nat :=
  count_events is_network_call t.

(** The paths the router was sent to. *)
Definition navigations (t : list Event) : list string :=
  omap (fun e => match e with EvNavigate to _ => Some to | _ => None end) t.

(** The toasts shown: title and status. *)
Definition toasts (t : list Event) : list (string * string) :=
  omap (fun e => match e with
                 | EvToast title _ status => Some (title, status)
                 | _ => None
                 end) t.

(** What [console.error] was given. *)
Definition console_errors (t : list Event) : list (string * Exn) :=
  omap (fun e => match e with
                 | EvConsoleError label x => Some (label, x)
                 | _ => None
                 end) t.

End BookingPage.

(** ** The form schema: [src/components/booking/BookingForm.jsx] *)

Module Schema.

(** The values the schema looks at: strings (of ASCII characters, so that
    [length] is the JavaScript length), and a date or [null]. *)
Record Values : Type :=
  mkValues { userName : string;
             phoneNumber : string;
             vehicleBrand : string;
             vehicleModel : string;
             vehicleColor : string;
             licensePlate : string;
             pickupAddress : string;
             dropOffAddress : string;
             pickupDateTime : option Z }.

(** [yup.string().required()]: the empty string is refused. *)
Definition required (s : string) : bool := negb (String.eqb s "").

(** [.min(n)] on a string. *)
Definition min_length (n : nat) (s : string) : bool :=
  bool_decide (n <= String.length s).

Definition is_digit (c : ascii) : bool :=
  let n := Ascii.nat_of_ascii c in bool_decide (48 <= n <= 57).

Fixpoint all_digits (s : string) : bool :=
  match s with
  | EmptyString => true
  | String c rest => is_digit c && all_digits rest
  end.

(** [.matches(/^\d{10}$/)]. *)
Definition ten_digits (s : string) : bool :=
  bool_decide (String.length s = 10) && all_digits s.

(** [yup.date().nullable().required().min(created)]: [null] is refused,
    and so is a date before [created]. *)
Definition date_from (created : Z) (d : option Z) : bool :=
  match d with
  | None => false
  | Some t => bool_decide (created <= t)%Z
  end.

(** The schema accepts the values.  [created] is the [new Date()] evaluated
    when the schema is built, that is when the module is loaded. *)
Definition schema (created : Z) (v : Values) : bool :=
  (required (userName v) && min_length 2 (userName v))
  && (ten_digits (phoneNumber v) && required (phoneNumber v))
  && required (vehicleBrand v)
  && required (vehicleModel v)
  && required (vehicleColor v)
  && (required (licensePlate v) && min_length 2 (licensePlate v))
  && (required (pickupAddress v) && min_length 5 (pickupAddress v))
  && (required (dropOffAddress v) && min_length 5 (dropOffAddress v))
  && date_from created (pickupDateTime v).

End Schema.

(** ** Sample environments, used to run the code on concrete inputs *)

Module Samples.
Import Js Backend BookingPage.

(** Every collaborator answers. *)
Definition env_ok : Env :=
  mkEnv (fun _ => None) None None
        (fun n => "key-" ++ pretty n) (fun n => "SRV-" ++ pretty n)
        "https://grua.example".

(** The gateway refuses the payment. *)
Definition env_declined : Env :=
  mkEnv (fun _ => None) (Some (mkStripeError "Your card was declined."))
        None
        (fun n => "key-" ++ pretty n) (fun n => "SRV-" ++ pretty n)
        "https://grua.example".


(** The first [failures] requests to the store fail. *)
Definition env_flaky (failures : nat) : Env :=
  mkEnv (fun n => if decide (n < failures) then Some "connection reset"
                  else None)
        None None
        (fun n => "key-" ++ pretty n) (fun n => "SRV-" ++ pretty n)
        "https://grua.example".

(** An empty store, with the clock at 1700000000000 ms. *)
Definition empty_world : World :=
  mkWorld (mkStore [] [] []) 1 1700000000000 0 0 [].

(** Three bookings, created at 10, 30 and 20 ms. *)
Definition busy_world : World :=
  mkWorld (mkStore [] []
             [ mkRow 1 10 ∅; mkRow 2 30 ∅; mkRow 3 20 ∅ ])
          4 1700000000000 0 0 [].

(** A signed-in customer whose form holds a pickup time of 1600000000000
    ms, long before the clock of [empty_world]. *)
Definition customer : Component :=
  mkComponent (generateTestData 1600000000000) 10 90 "Standard" false
              (Some (mkSession (Some (mkUser "user-1")))) true true.

(** A form filled in like the test data, with the given pickup time. *)
Definition filled_form (pickup : option Z) : Schema.Values :=
  Schema.mkValues "Test User" "1234567890" "Test Brand" "Test Model" "Red"
                  "TEST123" "123 Test St, Test City"
                  "456 Example Ave, Sample Town" pickup.

(** Test mode switched on, nobody signed in. *)
Definition tester : Component :=
  mkComponent (generateTestData 1700000000000) 10 90 "Standard" true
              None true true.

End Samples.

(** ** More ways to read a trace *)

Module Observe.
Import Js Backend.

(** Where a call that leaves the browser goes. *)
Inductive Call : Type :=
| CallGateway
| CallStore (t : Table)
| CallNotification.

Definition request_table (r : Request) : Table :=
  match r with
  | Select t _ _ _ _ | Insert t _ _ | Update t _ _ _ | Delete t _ => t
  end.

(** The calls of a trace, in order. *)
Definition calls (t : list Event) : list Call :=
  omap (fun e => match e with
                 | EvConfirmPayment _ => Some CallGateway
                 | EvRequest r => Some (CallStore (request_table r))
                 | EvAdminNotification _ _ _ => Some CallNotification
                 | _ => None
                 end) t.

(** The values [setIsLoading] was given. *)
Definition loading (t : list Event) : list bool :=
  omap (fun e => match e with EvSetIsLoading b => Some b | _ => None end) t.

(** The toasts of a trace, descriptions included. *)
Definition toast_events (t : list Event)
  : list (string * list Val * string) :=
  omap (fun e => match e with
                 | EvToast title description status =>
                     Some (title, description, status)
                 | _ => None
                 end) t.

(** Where the router was sent, and with what state. *)
Definition navigation_states (t : list Event) : list (string * NavState) :=
  omap (fun e => match e with
                 | EvNavigate to state => Some (to, state)
                 | _ => None
                 end) t.

(** The requests sent to the store. *)
Definition store_requests (t : list Event) : list Request :=
  omap (fun e => match e with EvRequest r => Some r | _ => None end) t.

End Observe.

(** ** More sample inputs *)

Module MoreSamples.
Import Js Backend BookingPage Samples.

(** Nobody signed in, test mode off. *)
Definition visitor : Component :=
  mkComponent (generateTestData 1700000000000) 10 90 "Standard" false
              None true true.

(** A signed-in customer on a page where Stripe has not loaded yet. *)
Definition early_customer : Component :=
  mkComponent (generateTestData 1700000000000) 10 90 "Standard" false
              (Some (mkSession (Some (mkUser "user-1")))) false true.

(** The gateway refuses the payment and gives no message. *)
Definition env_declined_silently : Env :=
  mkEnv (fun _ => None) (Some (mkStripeError "")) None
        (fun n => "key-" ++ pretty n) (fun n => "SRV-" ++ pretty n)
        "https://grua.example".

(** The second request to the store fails, the others are answered. *)
Definition env_second_fails : Env :=
  mkEnv (fun n => if decide (n = 1) then Some "insert refused" else None)
        None None
        (fun n => "key-" ++ pretty n) (fun n => "SRV-" ++ pretty n)
        "https://grua.example".

End MoreSamples.

(** ** The retry policy, for any number of failures *)

Module RetryRhythm.
Import Js Backend Admin.

(** What [n] failed attempts look like from outside: an attempt and a pause
    of [1000 * i] ms for the [i]-th of them. *)
Definition rhythm (n : nat) : list Beat :=
  flat_map (fun i => [Attempt; Pause (1000 * Z.of_nat i)]) (seq 1 n).

(** A call [wrapped] around [operation], started in [w], that is settled by
    an attempt that returns, after [n] attempts that failed: that attempt
    starts in a world [w2] with the store as it was, and what it returns is
    what the call returns. *)
Definition settled_after {A} (n : nat) (operation : M A)
  (wrapped : M (option A)) (w : World) : Prop :=
  exists w2 v w3,
    db w2 = db w
    /\ beats (trace w2) = (beats (trace w) ++ rhythm n)%list
    /\ operation w2 = (Normal v, w3)
    /\ wrapped w = (Normal (Some v), w3)
    /\ beats (trace w3) = (beats (trace w2) ++ [Attempt])%list.

(** The failures a call meets before an answer, three at most: the number
    of leading failures among the next three requests. *)
Definition leading_failures (env : Env) (w : World) : nat :=
  match store_fault env (requests w) with
  | None => 0
  | Some _ =>
      match store_fault env (S (requests w)) with
      | None => 1
      | Some _ =>
          match store_fault env (S (S (requests w))) with
          | None => 2
          | Some _ => 3
          end
      end
  end.

End RetryRhythm.

(** ** The form state of [src/pages/BookingForm.jsx] *)

Module FormState.
Import Js Backend BookingPage.

(** What [setFormData] is given: a next state, or a function of the
    pending state.  React queues the calls of one render and applies them
    in order when it renders again. *)
Inductive Action : Type :=
| Replace (next : gmap string Val)
| Update (f : gmap string Val -> gmap string Val).

Definition apply_action (state : gmap string Val) (a : Action) : gmap string Val :=
  match a with
  | Replace next => next
  | Update f => f state
  end.

(** The form data of the next render. *)
Definition rerender (state : gmap string Val) (queue : list Action)
  : gmap string Val :=
  foldl apply_action state queue.

(** [handleChange(e)], with [e.target.name] and [e.target.value]. *)
Definition handleChange (name value : string) : Action :=
  Update (fun prevData => spread prevData [(name, VStr value)]).

Definition handleDateTimeChange (date : Z) : Action :=
  Update (fun prevData => spread prevData [("pickupDateTime", VDate date)]).

(** The two callbacks handed to the map.  They are built in a render and
    close over the [formData] of that render. *)
Definition setPickupAddress (formData : gmap string Val) (address : string)
  : Action :=
  Replace (spread formData [("pickupAddress", VStr address)]).

Definition setDropOffAddress (formData : gmap string Val) (address : string)
  : Action :=
  Replace (spread formData [("dropOffAddress", VStr address)]).

End FormState.

(** ** The stepped form: [src/components/booking/BookingForm.jsx] *)

Module SteppedForm.
Import Js Backend.

(** JavaScript truthiness. *)
Definition truthy (v : Val) : bool :=
  match v with
  | VUndefined | VNull => false
  | VBool b => b
  | VNum x => negb (PrimFloat.eqb x 0) && negb (PrimFloat.is_nan x)
  | VId n => negb (n =? 0)%Z
  | VStr s => negb (String.eqb s "")
  | VDate _ | VIsoString _ => true
  end.

(** [formData.name]: [undefined] when the property is missing. *)
Definition field (name : string) (formData : gmap string Val) : Val :=
  default VUndefined (formData !! name).

(** The step shown by the stepper. *)
Definition currentStep (watchVehicleModel : Val)
  (formData : gmap string Val) : nat :=
  if negb (truthy watchVehicleModel) then 0
  else if negb (truthy (field "pickupAddress" formData))
          || negb (truthy (field "dropOffAddress" formData)) then 1
  else if negb (truthy (field "serviceType" formData)) then 2
  else 3.

(** The state of the component and what it has shown so far: toasts
    (title, description, status), navigations (path and the [bookingData]
    of the state), and what [console.error] was given. *)
Record Ui : Type :=
  mkUi { formData : gmap string Val;
         isPaymentWindowOpen : bool;
         shown : list (string * string * string);
         navigated : list (string * gmap string Val);
         logged : list (string * Exn) }.

Definition show (title description status : string) (u : Ui) : Ui :=
  mkUi (formData u) (isPaymentWindowOpen u)
       (shown u ++ [(title, description, status)]) (navigated u) (logged u).

Definition log (label : string) (e : Exn) (u : Ui) : Ui :=
  mkUi (formData u) (isPaymentWindowOpen u) (shown u) (navigated u)
       (logged u ++ [(label, e)]).

Definition setIsPaymentWindowOpen (b : bool) (u : Ui) : Ui :=
  mkUi (formData u) b (shown u) (navigated u) (logged u).

Definition setFormData (f : gmap string Val -> gmap string Val) (u : Ui)
  : Ui :=
  mkUi (f (formData u)) (isPaymentWindowOpen u) (shown u) (navigated u)
       (logged u).

Definition navigate (to : string) (bookingData : gmap string Val) (u : Ui)
  : Ui :=
  mkUi (formData u) (isPaymentWindowOpen u) (shown u)
       (navigated u ++ [(to, bookingData)]) (logged u).

Section Handlers.

(** [handleBookingProcess] of [../../hooks/useBookingForm], which is not
    part of the sources at hand: a parameter, that is given an object, may
    change the state of the component, and returns an object or throws. *)
Variable handleBookingProcess :
  gmap string Val -> Ui -> Completion (gmap string Val) * Ui.

(** [onSubmit(data)], with the [isValid] and [selectedTowTruckType] of the
    render. *)
Definition onSubmit (isValid : bool) (selectedTowTruckType : Val)
  (data : gmap string Val) (u : Ui) : Ui :=
  if isValid then
    match handleBookingProcess
            (spread data [("serviceType", selectedTowTruckType)]) u with
    | (Normal bookingData, u1) =>
        setIsPaymentWindowOpen true
          (setFormData (fun prevData => bookingData ∪ prevData) u1)
    | (Throw error, u1) =>
        show "Error"
             "There was an error processing your request. Please try again."
             "error"
             (log "Error processing booking:" error u1)
    end
  else
    show "Form Error" "Please complete all required fields correctly."
         "error" u.

(** What the payment window reports: [{ success, paymentMethodId, error }],
    [error] being empty when there is none. *)
Record PaymentResult : Type :=
  mkPaymentResult { success : bool; paymentMethodId : Val; error : string }.

(** The [catch] block of [handlePaymentSubmit]. *)
Definition payment_catch (error : Exn) (u : Ui) : Ui :=
  show "Payment Error"
       (or_else (message error)
          "There was an error processing your payment. Please try again.")
       "error"
       (log "Error finalizing booking:" error u).

(** [handlePaymentSubmit(paymentResult)].  [formData] is the one of the
    render the handler was built in: the state [u] it starts from. *)
Definition handlePaymentSubmit (paymentResult : PaymentResult) (u : Ui)
  : Ui :=
  if success paymentResult then
    match handleBookingProcess
            (spread (formData u)
               [ ("paymentMethodId", paymentMethodId paymentResult);
                 ("paymentStatus", VStr "paid") ]) u with
    | (Normal _, u1) =>
        navigate "/confirmation" (formData u)
          (show "Payment Successful"
                "Your payment has been processed successfully." "success"
                (setIsPaymentWindowOpen false u1))
    | (Throw error, u1) => payment_catch error u1
    end
  else
    payment_catch
      (Error (or_else (error paymentResult) "Payment processing failed")) u.

End Handlers.

End SteppedForm.

(** ** The admin panel *)

Module AdminPanel.
Import Js Backend BookingPage.

(** ['user'], ['admin'], ['super_admin']. *)
Inductive Role : Type := RoleUser | RoleAdmin | RoleSuperAdmin.

Section Panel.

(** [isAdmin] and [isSuperAdmin] of [../utils/adminUtils], which is not
    part of the sources at hand: parameters, answering for a user
    identifier. *)
Variable isAdmin : string -> bool.
Variable isSuperAdmin : string -> bool.

(** The effect that runs when [session] changes: the role it leaves in the
    state, [userRole] being the role before. *)
Definition checkAdminStatus (session : option Session) (userRole : Role)
  : Role :=
  match user_id <$> (session ≫= user) with
  | Some uid =>
      if String.eqb uid "" then userRole
      else if isSuperAdmin uid then RoleSuperAdmin
      else if isAdmin uid then RoleAdmin
      else RoleUser
  | None => userRole
  end.

End Panel.

(** What the component renders: the refusal, or the tabs, with the role
    handed to the user management tab. *)
Inductive View : Type :=
| NoPrivileges
| Tabs (userRole : Role).

Definition render (userRole : Role) : View :=
  match userRole with
  | RoleUser => NoPrivileges
  | _ => Tabs userRole
  end.

End AdminPanel.

(** ** Sample inputs for the stepped form *)

Module FormSamples.
Import Js Backend SteppedForm.

(** A booking hook that refuses. *)
Definition process_refuses (o : gmap string Val) (u : Ui)
  : Completion (gmap string Val) * Ui :=
  (Throw (Error "no tow truck available"), u).

(** A booking hook that keeps what it is given as the form data and
    returns it. *)
Definition process_keeps (o : gmap string Val) (u : Ui)
  : Completion (gmap string Val) * Ui :=
  (Normal o, setFormData (fun _ => o) u).

(** The payment window is open on a form with a name in it. *)
Definition paying : Ui :=
  mkUi (<["userName" := VStr "Test User"]> ∅) true [] [] [].

End FormSamples.

(** * Properties *)

(** ** Pricing *)

(** C1: for every vehicle size and every distance, the total computed by
    [calculateTotalCost] is [basePrice + distance * perKm * 2] for the rate
    of the category resolved from the size, whatever the rate table; and in
    every rate table in which size "Medium" resolves to category "Standard"
    with basePrice 50 and perKm 2, distance 10 costs 90. *)
Theorem calculateTotalCost_rate
  (getTowTruckType : string -> string)
  (getTowTruckPricing : string -> option Pricing.Rate)
  (vehicleSize : string) (distance : float) (r : Pricing.Rate)
  (Hrate : getTowTruckPricing (getTowTruckType vehicleSize) = Some r) :
  Pricing.calculateTotalCost getTowTruckType getTowTruckPricing
    vehicleSize distance
  = Pricing.Returns
      (Pricing.basePrice r + distance * Pricing.perKm r * 2)%float
  /\ (getTowTruckType "Medium" = "Standard" ->
      getTowTruckPricing "Standard" = Some (Pricing.mkRate 2%float 50%float) ->
      Pricing.calculateTotalCost getTowTruckType getTowTruckPricing
        "Medium" 10%float
      = Pricing.Returns 90%float).
Proof.
  unfold Pricing.calculateTotalCost. split.
  - by rewrite Hrate.
  - intros -> ->. reflexivity.
Qed.

Lemma calculateTotalCost_rate_witness :
  Pricing.calculateTotalCost
    Pricing.specTowTruckType Pricing.specTowTruckPricing "Medium" 2.5%float
  = Pricing.Returns 60%float
  /\ Pricing.calculateTotalCost
       Pricing.specTowTruckType Pricing.specTowTruckPricing "Medium" 10%float
     = Pricing.Returns 90%float.
Proof.
  pose proof (calculateTotalCost_rate
                Pricing.specTowTruckType Pricing.specTowTruckPricing
                "Medium" 2.5%float (Pricing.mkRate 2%float 50%float)
                eq_refl) as [Hgeneral Hmedium].
  exact (conj Hgeneral (Hmedium eq_refl eq_refl)).
Defined.

(** A size the table does not know makes the destructuring throw. *)
Lemma calculateTotalCost_unmapped
  (getTowTruckType : string -> string)
  (getTowTruckPricing : string -> option Pricing.Rate)
  (vehicleSize : string) (distance : float) :
  getTowTruckPricing (getTowTruckType vehicleSize) = None ->
  Pricing.calculateTotalCost getTowTruckType getTowTruckPricing
    vehicleSize distance
  = Pricing.ThrowsTypeError.
Proof. intros H. unfold Pricing.calculateTotalCost. by rewrite H. Qed.

(** ** Booking orchestrator *)

Section Traces.
Import Js Backend BookingPage Admin.

Lemma count_events_snoc p t e :
  count_events p (t ++ [e]) = (count_events p t + (if p e then 1 else 0))%nat.
Proof.
  unfold count_events. rewrite filter_app, length_app. f_equal.
  rewrite filter_cons, filter_nil. destruct (p e); by case_decide.
Qed.

Lemma navigations_snoc t e :
  navigations (t ++ [e])
  = (navigations t ++ match e with EvNavigate to _ => [to] | _ => [] end)%list.
Proof. unfold navigations. rewrite omap_app. by destruct e. Qed.

Lemma toasts_snoc t e :
  toasts (t ++ [e])
  = (toasts t ++ match e with
                 | EvToast title _ status => [(title, status)]
                 | _ => []
                 end)%list.
Proof. unfold toasts. rewrite omap_app. by destruct e. Qed.

Lemma console_errors_snoc t e :
  console_errors (t ++ [e])
  = (console_errors t ++ match e with
                         | EvConsoleError label x => [(label, x)]
                         | _ => []
                         end)%list.
Proof. unfold console_errors. rewrite omap_app. by destruct e. Qed.

Lemma beats_snoc t e :
  beats (t ++ [e])
  = (beats t ++ match e with
                | EvRequest _ => [Attempt]
                | EvSleep ms => [Pause ms]
                | _ => []
                end)%list.
Proof. unfold beats. rewrite omap_app. by destruct e. Qed.

Lemma snoc_neq {A} (l : list A) (x : A) : l <> (l ++ [x])%list.
Proof.
  intros H. apply (f_equal length) in H. rewrite length_app in H.
  cbn in H. lia.
Qed.

Lemma run_pair {A} (m : M A) (w : World) : m w = ((m w).1, (m w).2).
Proof. by destruct (m w). Qed.

End Traces.

#[local] Arguments Js.spread : simpl never.
#[local] Arguments BookingPage.count_events : simpl never.
#[local] Arguments BookingPage.charge_attempts : simpl never.
#[local] Arguments BookingPage.network_calls : simpl never.
#[local] Arguments BookingPage.navigations : simpl never.
#[local] Arguments BookingPage.toasts : simpl never.
#[local] Arguments BookingPage.console_errors : simpl never.

Import Js Backend BookingPage Samples.

Ltac flow_unfold :=
  unfold handleBookingProcess, booking_try, booking_catch, toast,
    confirmPayment, sendAdminNotification, uuidv4, clock, supabase, single,
    finally, try_catch, bind, throw, ret, effect, emit, validateForm in *.

Ltac read_trace :=
  unfold charge_attempts, network_calls;
  rewrite ?count_events_snoc, ?navigations_snoc, ?toasts_snoc,
    ?console_errors_snoc;
  cbn [is_charge is_network_call]; rewrite ?app_nil_r, ?Nat.add_0_r.

(** Decide the next request to the store: by a hypothesis when there is
    one, by cases otherwise. *)
Ltac decide_fault f n :=
  match goal with
  | H : f n = _ |- _ => rewrite H
  | _ => let F := fresh "Hfault" in
         let m := fresh "fault" in
         destruct (f n) as [m|] eqn:F
  end.

(** Walk down the paths of [handleBookingProcess] in the order the source
    takes its decisions, closing with [fin] every path it settles. *)
Ltac walk env c w fin :=
  destruct c as [formData0 distance0 totalCost0 truck0 test0 session0
                 stripe0 elements0];
  destruct env as [fault0 confirm0 notify0 uuid0 number0 origin0];
  flow_unfold; simpl in *; subst; simpl;
  try (destruct session0 as [sess|]); try (destruct test0);
  simpl; try solve [fin];
  (try (destruct stripe0); try (destruct elements0); simpl; try solve [fin]);
  (try (destruct confirm0 as [stripeError|]); simpl; try solve [fin]);
  (decide_fault fault0 (requests w); simpl; try solve [fin]);
  (decide_fault fault0 (S (requests w)); simpl; try solve [fin]);
  (try (destruct notify0 as [down|]); simpl; try solve [fin]).

(** Read a property of an object literal. *)
Ltac lookup_spread :=
  cbn [cols id]; unfold spread, status_of; cbn [foldl fst snd];
  repeat first [ rewrite lookup_insert_eq
               | rewrite lookup_insert_ne by done ].

(** [validateForm] lets every form through: the flow never stops there. *)
Lemma validateForm_accepts c : validateForm c = true.
Proof. reflexivity. Qed.

(** A submission calls the gateway once at most. *)
Lemma charge_at_most_once env c w :
  charge_attempts (trace (handleBookingProcess env c w).2)
  <= S (charge_attempts (trace w)).
Proof.
  walk env c w ltac:(read_trace; lia).
Qed.

(** C2: when the gateway answers [confirmPayment] with an error, the store
    is left as it was and no request is sent to it; and a submission that
    reaches the gateway (signed in or in test mode, Stripe initialised)
    fails with the error built from the gateway's message: it is logged, a
    "Booking Failed" toast is shown, nothing is navigated to. *)
Theorem payment_rejection_creates_nothing env c w e o w'
  (Hreject : confirm_reply env = Some e)
  (Hrun : handleBookingProcess env c w = (o, w')) :
  db w' = db w
  /\ requests w' = requests w
  /\ (is_Some (session c) \/ isTestMode c = true ->
      stripe c = true -> elements c = true ->
      o = Normal (Failed (Error (stripe_message e)))
      /\ charge_attempts (trace w') = S (charge_attempts (trace w))
      /\ console_errors (trace w')
         = (console_errors (trace w)
            ++ [("Booking error:", Error (stripe_message e))])%list
      /\ toasts (trace w')
         = (toasts (trace w) ++ [("Booking Failed", "error")])%list
      /\ navigations (trace w') = navigations (trace w)).
Proof.
  revert Hrun.
  walk env c w ltac:(
    intros Hrun; simplify_eq; cbn [db requests trace];
    split; [done | split; [done |]];
    intros Hauth Hs He;
    first
      [ done
      | by destruct Hauth as [[? ?] | ?]
      | repeat split; read_trace; first [ done | lia ] ]).
Qed.

Lemma payment_rejection_creates_nothing_witness :
  let r := handleBookingProcess env_declined customer empty_world in
  db r.2 = db empty_world
  /\ requests r.2 = requests empty_world
  /\ r.1 = Normal (Failed (Error "Your card was declined."))
  /\ toasts (trace r.2) = [("Booking Failed", "error")].
Proof.
  pose proof (payment_rejection_creates_nothing
                env_declined customer empty_world
                (mkStripeError "Your card was declined.") _ _
                eq_refl (run_pair _ _)) as (Hdb & Hrequests & Hfails).
  pose proof (Hfails (or_introl (ex_intro _ _ eq_refl)) eq_refl eq_refl)
    as (Hout & _ & _ & Htoast & _).
  exact (conj Hdb (conj Hrequests (conj Hout Htoast))).
Defined.




(** C4, as the specification states it, fails here: test mode is on, nobody
    is signed in, and the gateway is still called: the third event of the
    run is the call to [confirmPayment]. *)
Lemma test_mode_still_confirms_payment :
  let r := handleBookingProcess env_ok tester empty_world in
  isTestMode tester = true
  /\ charge_attempts (trace empty_world) = 0
  /\ charge_attempts (trace r.2) = 1
  /\ trace r.2 !! 2
     = Some (EvConfirmPayment "https://grua.example/confirmation")
  /\ r.1 = Normal Confirmed.
Proof. vm_compute. repeat split; done. Qed.

(** C4, amended: for every submission with the test-mode flag set,
    authentication is bypassed -- the flow never redirects to login, the
    only place it may navigate to is the confirmation page -- and a Service
    row or a Booking row it creates carries status [test_mode]; payment
    confirmation is not bypassed: with Stripe initialised, [confirmPayment]
    is called exactly once. *)
Theorem test_mode_skips_login_only env c w o w'
  (Htest : isTestMode c = true)
  (Hrun : handleBookingProcess env c w = (o, w')) :
  o <> Normal RedirectedToLogin
  /\ (navigations (trace w') = navigations (trace w)
      \/ navigations (trace w')
         = (navigations (trace w) ++ ["/confirmation"])%list)
  /\ (forall s, services (db w') = (services (db w) ++ [s])%list ->
                cols s !! "status" = Some (VStr "test_mode"))
  /\ (forall b, bookings (db w') = (bookings (db w) ++ [b])%list ->
                cols b !! "status" = Some (VStr "test_mode"))
  /\ (stripe c = true -> elements c = true ->
      charge_attempts (trace w') = S (charge_attempts (trace w))).
Proof.
  revert Hrun.
  walk env c w ltac:(
    intros Hrun;
    first
      [ done
      | simplify_eq; cbn [db trace services bookings];
        split; [done |];
        split; [read_trace; (by left) || (by right) |];
        split; [intros s Hs;
                first [ by apply snoc_neq in Hs
                      | apply app_inv_head in Hs; simplify_eq;
                        by lookup_spread ] |];
        split; [intros b Hb;
                first [ by apply snoc_neq in Hb
                      | apply app_inv_head in Hb; simplify_eq;
                        by lookup_spread ] |];
        intros Hs He; first [ done | read_trace; lia ] ]).
Qed.

Lemma test_mode_skips_login_only_witness :
  let r := handleBookingProcess env_ok tester empty_world in
  r.1 <> Normal RedirectedToLogin
  /\ (navigations (trace r.2) = navigations (trace empty_world)
      \/ navigations (trace r.2)
         = (navigations (trace empty_world) ++ ["/confirmation"])%list)
  /\ (forall s, services (db r.2) = (services (db empty_world) ++ [s])%list ->
                cols s !! "status" = Some (VStr "test_mode"))
  /\ (forall b, bookings (db r.2) = (bookings (db empty_world) ++ [b])%list ->
                cols b !! "status" = Some (VStr "test_mode"))
  /\ (stripe tester = true -> elements tester = true ->
      charge_attempts (trace r.2) = S (charge_attempts (trace empty_world))).
Proof.
  exact (test_mode_skips_login_only env_ok tester empty_world _ _
           eq_refl (run_pair _ _)).
Defined.

(** C5 does not hold of [handleBookingProcess]: [validateForm] is a
    placeholder that accepts every form.  Here the pickup time in the form
    lies long before the clock, and the submission goes all the way: four
    calls leave the browser (gateway, two inserts, notification) and a
    booking row is stored. *)
Lemma past_pickup_reaches_the_network :
  let r := handleBookingProcess env_ok customer empty_world in
  formData customer !! "pickupDateTime" = Some (VDate 1600000000000)
  /\ (1600000000000 < now empty_world)%Z
  /\ validateForm customer = true
  /\ r.1 = Normal Confirmed
  /\ network_calls (trace empty_world) = 0
  /\ network_calls (trace r.2) = 4
  /\ length (bookings (db r.2)) = 1.
Proof. vm_compute. repeat split; done. Qed.

(** No submission is stopped by [validateForm]. *)
Lemma never_stopped_by_validation env c w :
  (handleBookingProcess env c w).1 <> Normal NotValidated.
Proof.
  walk env c w ltac:(done).
Qed.

(** The sibling form does check the pickup time: its schema refuses a
    pickup time before the instant at which the schema was built. *)
Lemma schema_refuses_earlier_pickup created v t :
  Schema.pickupDateTime v = Some t ->
  (t < created)%Z ->
  Schema.schema created v = false.
Proof.
  intros Hdate Hlt. unfold Schema.schema, Schema.date_from.
  rewrite Hdate, bool_decide_eq_false_2 by lia.
  by rewrite andb_false_r.
Qed.

(** The schema accepts a filled form from the instant it was built on,
    whatever the time at which the form is submitted; it refuses an earlier
    pickup time, no pickup time, and a phone number that is not ten
    digits. *)
Example schema_on_filled_forms :
  Schema.schema 1000 (filled_form (Some 1000%Z)) = true
  /\ Schema.schema 1000 (filled_form (Some 999%Z)) = false
  /\ Schema.schema 1000 (filled_form None) = false
  /\ Schema.schema 1000
       (Schema.mkValues "Test User" "12345" "Test Brand" "Test Model" "Red"
          "TEST123" "123 Test St, Test City" "456 Example Ave, Sample Town"
          (Some 1000%Z)) = false.
Proof. by vm_compute. Qed.

(** C8: every successful submission -- one that ends [Confirmed] -- adds
    exactly one row to [services] and one to [bookings], the booking row
    carrying the identifier of the service row, leaves [users] alone, sends
    two requests to the store, and calls the gateway exactly once; and no
    submission, successful or not, calls the gateway more than once. *)
Theorem successful_submission_rows env c w w'
  (Hrun : handleBookingProcess env c w = (Normal Confirmed, w')) :
  (exists s b,
     services (db w') = (services (db w) ++ [s])%list
     /\ bookings (db w') = (bookings (db w) ++ [b])%list
     /\ users (db w') = users (db w)
     /\ cols b !! "serviceId" = Some (VId (id s)))
  /\ requests w' = S (S (requests w))
  /\ charge_attempts (trace w') = S (charge_attempts (trace w))
  /\ (forall env1 c1 w1,
        charge_attempts (trace (handleBookingProcess env1 c1 w1).2)
        <= S (charge_attempts (trace w1))).
Proof.
  revert Hrun.
  walk env c w ltac:(intros Hrun; simplify_eq).
  all: intros Hrun; simplify_eq;
    cbn [db requests trace users services bookings].
  all: split; [eexists _, _; repeat split; by lookup_spread |].
  all: split; [done |]; split; [read_trace; lia | apply charge_at_most_once].
Qed.

Lemma successful_submission_rows_witness :
  let r := handleBookingProcess env_ok customer empty_world in
  (exists s b,
     services (db r.2) = (services (db empty_world) ++ [s])%list
     /\ bookings (db r.2) = (bookings (db empty_world) ++ [b])%list
     /\ users (db r.2) = users (db empty_world)
     /\ cols b !! "serviceId" = Some (VId (id s)))
  /\ requests r.2 = S (S (requests empty_world))
  /\ charge_attempts (trace r.2) = S (charge_attempts (trace empty_world)).
Proof.
  pose proof (successful_submission_rows env_ok customer empty_world
                (handleBookingProcess env_ok customer empty_world).2
                eq_refl) as (Hrows & Hrequests & Hcharge & _).
  exact (conj Hrows (conj Hrequests Hcharge)).
Defined.

(** C9: in every submission attempt that creates a Service row and a
    Booking row, both carry the one key [uuidv4] drew for the attempt --
    [dynamic_key] on the service, [dynamicKey] on the booking -- and the
    same status: [test_mode] when the test-mode flag is set, [pending]
    otherwise. *)
Theorem rows_share_key_and_status env c w o w' s b
  (Hrun : handleBookingProcess env c w = (o, w'))
  (Hservice : services (db w') = (services (db w) ++ [s])%list)
  (Hbooking : bookings (db w') = (bookings (db w) ++ [b])%list) :
  cols s !! "dynamic_key" = Some (VStr (uuid_at env (uuids_drawn w)))
  /\ cols b !! "dynamicKey" = Some (VStr (uuid_at env (uuids_drawn w)))
  /\ uuids_drawn w' = S (uuids_drawn w)
  /\ cols s !! "status"
     = Some (VStr (if isTestMode c then "test_mode" else "pending"))
  /\ cols b !! "status"
     = Some (VStr (if isTestMode c then "test_mode" else "pending")).
Proof.
  revert Hrun Hservice Hbooking.
  walk env c w ltac:(
    intros Hrun; simplify_eq; cbn [db services bookings uuids_drawn];
    intros Hservice Hbooking;
    first
      [ by apply snoc_neq in Hservice
      | by apply snoc_neq in Hbooking
      | apply app_inv_head in Hservice; apply app_inv_head in Hbooking;
        simplify_eq; cbn [cols]; repeat split; by lookup_spread ]).
Qed.

Lemma rows_share_key_and_status_witness :
  let r := handleBookingProcess env_ok customer empty_world in
  let s := default (mkRow 0 0 ∅) (head (services (db r.2))) in
  let b := default (mkRow 0 0 ∅) (head (bookings (db r.2))) in
  services (db r.2) = [s]
  /\ bookings (db r.2) = [b]
  /\ cols s !! "dynamic_key" = Some (VStr (uuid_at env_ok 0))
  /\ cols b !! "dynamicKey" = Some (VStr (uuid_at env_ok 0))
  /\ uuids_drawn r.2 = 1
  /\ cols s !! "status" = Some (VStr "pending")
  /\ cols b !! "status" = Some (VStr "pending").
Proof.
  intros r s b.
  assert (Hs : services (db r.2) = (services (db empty_world) ++ [s])%list)
    by (vm_compute; reflexivity).
  assert (Hb : bookings (db r.2) = (bookings (db empty_world) ++ [b])%list)
    by (vm_compute; reflexivity).
  exact (conj Hs
           (conj Hb
              (rows_share_key_and_status env_ok customer empty_world _ _ _ _
                 (run_pair _ _) Hs Hb))).
Defined.

(** ** Admin query layer: the retry policy *)

Section Retry.
Import Admin.
Context {A : Type} (operation : M A) (entityName : string).

Lemma pretty_maxRetries : pretty maxRetries = "3".
Proof. by vm_compute. Qed.

Lemma backed_off_frame retries x w :
  let w' := backed_off entityName retries x w in
  db w' = db w /\ requests w' = requests w
  /\ now w' = (now w + 1000 * Z.of_nat retries)%Z
  /\ beats (trace w')
     = (beats (trace w) ++ [Pause (1000 * Z.of_nat retries)])%list.
Proof.
  unfold backed_off, sleep, emit. cbn [snd db requests now trace].
  repeat split; [lia |]. by rewrite !beats_snoc, app_nil_r.
Qed.

(** One pass through the body of the loop. *)
Lemma retry_loop_step budget retries w :
  retries < maxRetries ->
  retry_loop operation entityName (S budget) retries w =
  match operation w with
  | (Normal v, w1) => (Normal (Some v), w1)
  | (Throw x, w1) =>
      if decide (S retries = maxRetries) then
        (Throw (Error ("Failed after 3 attempts: " ++ message x)),
         emit (EvConsoleError ("Supabase error (" ++ entityName ++ "):") x) w1)
      else
        retry_loop operation entityName budget (S retries)
                   (backed_off entityName (S retries) x w1)
  end.
Proof.
  intros Hlt. cbn [retry_loop]. rewrite decide_True by done.
  unfold try_catch, bind, ret, effect, throw, backed_off, sleep.
  destruct (operation w) as [[v|x] w1]; [done |].
  rewrite pretty_maxRetries. by case_decide.
Qed.

Lemma handleSupabaseError_unfold :
  handleSupabaseError operation entityName
  = retry_loop operation entityName 3 0.
Proof. reflexivity. Qed.

(** An attempt that returns ends the loop. *)
Lemma handleSupabaseError_first w v w1 :
  operation w = (Normal v, w1) ->
  handleSupabaseError operation entityName w = (Normal (Some v), w1).
Proof.
  intros H. rewrite handleSupabaseError_unfold.
  rewrite retry_loop_step by (unfold maxRetries; lia). by rewrite H.
Qed.

(** After two failed attempts the third one decides. *)
Lemma handleSupabaseError_third w x1 w1 x2 w2 :
  operation w = (Throw x1, w1) ->
  operation (backed_off entityName 1 x1 w1) = (Throw x2, w2) ->
  handleSupabaseError operation entityName w =
  match operation (backed_off entityName 2 x2 w2) with
  | (Normal v, w3) => (Normal (Some v), w3)
  | (Throw x3, w3) =>
      (Throw (Error ("Failed after 3 attempts: " ++ message x3)),
       emit (EvConsoleError ("Supabase error (" ++ entityName ++ "):") x3) w3)
  end.
Proof.
  intros H1 H2. rewrite handleSupabaseError_unfold.
  rewrite retry_loop_step, H1 by (unfold maxRetries; lia).
  case_decide as Hd; [by unfold maxRetries in Hd |]; clear Hd.
  rewrite retry_loop_step, H2 by (unfold maxRetries; lia).
  case_decide as Hd; [by unfold maxRetries in Hd |]; clear Hd.
  rewrite retry_loop_step by (unfold maxRetries; lia).
  destruct (operation _) as [[v|x3] w3]; [done |].
  case_decide as Hd; [done | by unfold maxRetries in Hd].
Qed.

(** The loop is always left through a [return] or a [throw]: the wrapper
    never gives [undefined]. *)
Lemma handleSupabaseError_defined w :
  (handleSupabaseError operation entityName w).1 <> Normal None.
Proof.
  rewrite handleSupabaseError_unfold.
  rewrite retry_loop_step by (unfold maxRetries; lia).
  destruct (operation w) as [[v|x1] w1]; [done |].
  case_decide as Hd; [by unfold maxRetries in Hd |]; clear Hd.
  rewrite retry_loop_step by (unfold maxRetries; lia).
  destruct (operation _) as [[v|x2] w2]; [done |].
  case_decide as Hd; [by unfold maxRetries in Hd |]; clear Hd.
  rewrite retry_loop_step by (unfold maxRetries; lia).
  destruct (operation _) as [[v|x3] w3]; [done |].
  case_decide as Hd; [done | by unfold maxRetries in Hd].
Qed.

Lemma retried_intro env prefix w e1 e2 :
  fails_with env operation prefix ->
  succeeds env operation ->
  store_fault env (requests w) = Some e1 ->
  store_fault env (S (requests w)) = Some e2 ->
  retried env operation (handleSupabaseError operation entityName) prefix w.
Proof.
  intros Hfail Hok H1 H2.
  destruct (Hfail w e1 H1) as (w1 & Hop1 & Hdb1 & Hreq1 & Hnow1 & Hbeat1).
  destruct (backed_off_frame 1 (Error (prefix ++ e1)) w1)
    as (Hdb1' & Hreq1' & Hnow1' & Hbeat1').
  set (v1 := backed_off entityName 1 (Error (prefix ++ e1)) w1) in *.
  assert (Hf2 : store_fault env (requests v1) = Some e2)
    by (by rewrite Hreq1', Hreq1).
  destruct (Hfail v1 e2 Hf2) as (w2 & Hop2 & Hdb2 & Hreq2 & Hnow2 & Hbeat2).
  destruct (backed_off_frame 2 (Error (prefix ++ e2)) w2)
    as (Hdb2' & Hreq2' & Hnow2' & Hbeat2').
  set (v2 := backed_off entityName 2 (Error (prefix ++ e2)) w2) in *.
  assert (Hreq3 : requests v2 = S (S (requests w))) by congruence.
  exists v2. split; [congruence |]. split; [done |].
  split; [rewrite Hnow2', Hnow2, Hnow1', Hnow1; lia |].
  split.
  { rewrite Hbeat2', Hbeat2, Hbeat1', Hbeat1, <- !app_assoc. done. }
  rewrite (handleSupabaseError_third w _ w1 _ w2 Hop1 Hop2). fold v2.
  destruct (store_fault env (S (S (requests w)))) as [e3|] eqn:H3.
  - rewrite <- Hreq3 in H3.
    destruct (Hfail v2 e3 H3) as (w3 & Hop3 & Hdb3 & _ & _ & Hbeat3).
    rewrite Hop3. eexists. split; [done |].
    cbn [emit db trace]. split; [congruence |].
    by rewrite beats_snoc, app_nil_r.
  - rewrite <- Hreq3 in H3.
    destruct (Hok v2 H3) as (v & w3 & Hop3 & Hbeat3).
    rewrite Hop3. by exists v, w3.
Qed.

End Retry.

Import Admin.

#[local] Arguments Backend.order_by : simpl never.
#[local] Arguments Backend.range_slice : simpl never.
#[local] Arguments Admin.beats : simpl never.
#[local] Arguments Admin.ceil_quotient : simpl never.

Ltac admin_unfold :=
  unfold getUsers_operation, getBookings_operation, createBooking_operation,
    updateBooking_operation, deleteBooking_operation, deleteUser_operation,
    first_of, supabase, bind, ret, throw, effect, emit.

(** An operation turns a failed request into an [Error] whose message is
    its own prefix followed by the message of the store. *)
Ltac settle_fails :=
  intros w msg Hfault; admin_unfold; rewrite Hfault; simpl;
  eexists; split; [reflexivity |]; simpl;
  repeat split; by rewrite ?beats_snoc, ?app_nil_r.

Ltac settle_succeeds :=
  intros w Hfault; admin_unfold; rewrite Hfault; simpl;
  eexists _, _; split; [reflexivity |]; simpl;
  by rewrite ?beats_snoc, ?app_nil_r.

Lemma getUsers_fails env :
  fails_with env (getUsers_operation env) "Failed to fetch users: ".
Proof. settle_fails. Qed.

Lemma getUsers_succeeds env : succeeds env (getUsers_operation env).
Proof. settle_succeeds. Qed.

Lemma getBookings_fails env page limit :
  fails_with env (getBookings_operation env page limit)
             "Failed to fetch bookings: ".
Proof. settle_fails. Qed.

Lemma getBookings_succeeds env page limit :
  succeeds env (getBookings_operation env page limit).
Proof. settle_succeeds. Qed.

Lemma createBooking_fails env bookingData :
  fails_with env (createBooking_operation env bookingData)
             "Failed to create booking: ".
Proof. settle_fails. Qed.

Lemma createBooking_succeeds env bookingData :
  succeeds env (createBooking_operation env bookingData).
Proof. settle_succeeds. Qed.

Lemma updateBooking_fails env id bookingData :
  fails_with env (updateBooking_operation env id bookingData)
             "Failed to update booking: ".
Proof. settle_fails. Qed.

Lemma updateBooking_succeeds env id bookingData :
  succeeds env (updateBooking_operation env id bookingData).
Proof. settle_succeeds. Qed.

Lemma deleteBooking_fails env id :
  fails_with env (deleteBooking_operation env id)
             "Failed to delete booking: ".
Proof. settle_fails. Qed.

Lemma deleteBooking_succeeds env id :
  succeeds env (deleteBooking_operation env id).
Proof. settle_succeeds. Qed.

Lemma deleteUser_fails env id :
  fails_with env (deleteUser_operation env id) "Failed to delete user: ".
Proof. settle_fails. Qed.

Lemma deleteUser_succeeds env id : succeeds env (deleteUser_operation env id).
Proof. settle_succeeds. Qed.

Create HintDb admin.

#[local] Hint Resolve getUsers_fails getUsers_succeeds getBookings_fails
  getBookings_succeeds createBooking_fails createBooking_succeeds
  updateBooking_fails updateBooking_succeeds deleteBooking_fails
  deleteBooking_succeeds deleteUser_fails deleteUser_succeeds : admin.

(** C6: for each of getUsers, getBookings, createBooking, updateBooking,
    deleteBooking and deleteUser, when the request to the store fails on
    the first two attempts, the third attempt is made after pauses of 1000
    and 2000 ms (attempt, pause, attempt, pause, attempt) against the store
    as it was, and decides: if it is answered, the operation returns what
    that attempt returned; if it fails too, the operation throws an error
    that reports 3 attempts and the message of the last failure. *)
Theorem admin_operations_retry env w e1 e2
  (Hfirst : store_fault env (requests w) = Some e1)
  (Hsecond : store_fault env (S (requests w)) = Some e2) :
  retried env (getUsers_operation env) (getUsers env)
          "Failed to fetch users: " w
  /\ (forall page limit,
        retried env
          (getBookings_operation env (default 1%Z page) (default 10%Z limit))
          (getBookings env page limit) "Failed to fetch bookings: " w)
  /\ (forall bookingData,
        retried env (createBooking_operation env bookingData)
                (createBooking env bookingData)
                "Failed to create booking: " w)
  /\ (forall id bookingData,
        retried env (updateBooking_operation env id bookingData)
                (updateBooking env id bookingData)
                "Failed to update booking: " w)
  /\ (forall id,
        retried env (deleteBooking_operation env id) (deleteBooking env id)
                "Failed to delete booking: " w)
  /\ (forall id,
        retried env (deleteUser_operation env id) (deleteUser env id)
                "Failed to delete user: " w).
Proof.
  repeat split; intros; eapply retried_intro; eauto with admin.
Qed.

Lemma admin_operations_retry_witness :
  (retried (env_flaky 2) (getUsers_operation (env_flaky 2))
           (getUsers (env_flaky 2)) "Failed to fetch users: " empty_world
   /\ forall id,
        retried (env_flaky 2) (deleteUser_operation (env_flaky 2) id)
                (deleteUser (env_flaky 2) id) "Failed to delete user: "
                empty_world)
  /\ (forall id,
        retried (env_flaky 3) (deleteBooking_operation (env_flaky 3) id)
                (deleteBooking (env_flaky 3) id) "Failed to delete booking: "
                empty_world).
Proof.
  pose proof (admin_operations_retry (env_flaky 2) empty_world
                "connection reset" "connection reset" eq_refl eq_refl)
    as (Husers & _ & _ & _ & _ & Hdelete).
  pose proof (admin_operations_retry (env_flaky 3) empty_world
                "connection reset" "connection reset" eq_refl eq_refl)
    as (_ & _ & _ & _ & Hbooking & _).
  exact (conj (conj Husers Hdelete) Hbooking).
Defined.

(** The policy at work on an empty store. *)
Example deleteUser_third_time_lucky :
  (deleteUser (env_flaky 2) 7 empty_world).1 = Normal (Some (mkSuccess true))
  /\ beats (trace (deleteUser (env_flaky 2) 7 empty_world).2)
     = [Attempt; Pause 1000; Attempt; Pause 2000; Attempt]
  /\ now (deleteUser (env_flaky 2) 7 empty_world).2
     = (now empty_world + 3000)%Z.
Proof. by vm_compute. Qed.

Example deleteUser_gives_up :
  (deleteUser (env_flaky 3) 7 empty_world).1
  = Throw (Error
      "Failed after 3 attempts: Failed to delete user: connection reset")
  /\ beats (trace (deleteUser (env_flaky 3) 7 empty_world).2)
     = [Attempt; Pause 1000; Attempt; Pause 2000; Attempt].
Proof. by vm_compute. Qed.

(** ** Admin query layer: paging *)

Section Paging.

#[local] Instance ordered_total c ascending : Total (ordered c ascending).
Proof. intros a b. unfold ordered. destruct ascending; lia. Qed.

#[local] Instance ordered_trans c ascending :
  Transitive (ordered c ascending).
Proof. intros x y z. unfold ordered. destruct ascending; lia. Qed.

Lemma order_by_sorted c ascending rows :
  StronglySorted (ordered c ascending) (order_by (Some (c, ascending)) rows).
Proof. apply StronglySorted_merge_sort; apply _. Qed.

Lemma order_by_permutation order rows : order_by order rows ≡ₚ rows.
Proof.
  destruct order as [[c ascending]|]; [|done]. apply merge_sort_Permutation.
Qed.

(** A slice of a sorted list is sorted. *)
Lemma range_slice_sorted (R : relation Row) a b rows :
  StronglySorted R rows -> StronglySorted R (range_slice a b rows).
Proof.
  intros H. unfold range_slice.
  rewrite <- (take_drop (Z.to_nat a) rows) in H.
  apply StronglySorted_app_1_r in H.
  rewrite <- (take_drop (Z.to_nat (b - a + 1)) (drop _ rows)) in H.
  by apply StronglySorted_app_1_l in H.
Qed.

(** For a limit that is positive, [ceil_quotient] is the least number of
    pages of [limit] rows that hold [count] rows. *)
Lemma ceil_quotient_pages count limit :
  (0 < limit)%Z ->
  exists pages,
    ceil_quotient count limit = Finite pages
    /\ ((pages - 1) * limit < count <= pages * limit)%Z.
Proof.
  intros Hlimit. unfold ceil_quotient. rewrite decide_False by lia.
  eexists. split; [done |].
  pose proof (Z.div_mod (- count) limit ltac:(lia)).
  pose proof (Z.mod_pos_bound (- count) limit Hlimit). nia.
Qed.

End Paging.

(** C7: when the store answers, [getBookings] with page 1 and limit 10
    (given or left to their defaults) on a store without bookings returns
    exactly [{ data: [], count: 0, totalPages: 0 }]; and in general it
    returns the rows at positions [(page - 1) * limit] to
    [(page - 1) * limit + limit - 1] of the bookings ordered by creation
    time, latest first, the number of bookings as [count], and
    [Math.ceil(count / limit)] as [totalPages] -- for a positive limit, the
    least number of pages that hold [count] rows. *)
Theorem getBookings_pages env w
  (Hup : store_fault env (requests w) = None) :
  (bookings (db w) = [] ->
   (getBookings env (Some 1%Z) (Some 10%Z) w).1
   = Normal (Some (mkPage [] (Some 0%Z) (Finite 0)))
   /\ (getBookings env None None w).1
      = Normal (Some (mkPage [] (Some 0%Z) (Finite 0))))
  /\ (forall page limit,
        let total := Z.of_nat (length (bookings (db w))) in
        exists sorted,
          sorted ≡ₚ bookings (db w)
          /\ StronglySorted (fun a b => (created_at b <= created_at a)%Z)
                            sorted
          /\ (getBookings env (Some page) (Some limit) w).1
             = Normal (Some (mkPage
                               (range_slice ((page - 1) * limit)
                                  ((page - 1) * limit + limit - 1) sorted)
                               (Some total)
                               (ceil_quotient total limit)))
          /\ StronglySorted (fun a b => (created_at b <= created_at a)%Z)
               (range_slice ((page - 1) * limit)
                            ((page - 1) * limit + limit - 1) sorted)
          /\ ((0 < limit)%Z ->
              exists pages,
                ceil_quotient total limit = Finite pages
                /\ ((pages - 1) * limit < total <= pages * limit)%Z)).
Proof.
  split.
  - intros Hempty.
    assert (Hrun : forall page limit,
      default 1%Z page = 1%Z -> default 10%Z limit = 10%Z ->
      (getBookings env page limit w).1
      = Normal (Some (mkPage [] (Some 0%Z) (Finite 0)))).
    { intros page limit Hpage Hlimit. unfold getBookings.
      rewrite Hpage, Hlimit.
      erewrite handleSupabaseError_first; [done |].
      unfold getBookings_operation, supabase, bind, ret.
      rewrite Hup. cbn. by rewrite Hempty. }
    split; by apply Hrun.
  - intros page limit total.
    exists (order_by (Some (ColCreatedAt, false)) (bookings (db w))).
    split; [apply order_by_permutation |].
    split; [apply (order_by_sorted ColCreatedAt false) |].
    split.
    { unfold getBookings.
      erewrite handleSupabaseError_first; [done |].
      unfold getBookings_operation, supabase, bind, ret.
      by rewrite Hup. }
    split; [apply range_slice_sorted, (order_by_sorted ColCreatedAt false) |].
    apply ceil_quotient_pages.
Qed.

Lemma getBookings_pages_witness :
  (getBookings env_ok (Some 1%Z) (Some 10%Z) empty_world).1
  = Normal (Some (mkPage [] (Some 0%Z) (Finite 0)))
  /\ (getBookings env_ok None None empty_world).1
     = Normal (Some (mkPage [] (Some 0%Z) (Finite 0))).
Proof.
  exact (proj1 (getBookings_pages env_ok empty_world eq_refl) eq_refl).
Defined.

(** Three bookings, two to a page: the first page holds the latest two,
    the second the earliest one, and there are two pages. *)
Example getBookings_two_pages :
  (getBookings env_ok (Some 1%Z) (Some 2%Z) busy_world).1
  = Normal (Some (mkPage [mkRow 2 30 ∅; mkRow 3 20 ∅] (Some 3%Z) (Finite 2)))
  /\ (getBookings env_ok (Some 2%Z) (Some 2%Z) busy_world).1
     = Normal (Some (mkPage [mkRow 1 10 ∅] (Some 3%Z) (Finite 2))).
Proof. by vm_compute. Qed.

(** ** Admin query layer: deleting *)

Lemma filter_none_matches (eq : Column * Z) rows :
  Forall (fun r => ~ matches eq r) rows ->
  filter (fun r => ~ matches eq r) rows = rows.
Proof.
  induction 1 as [|r rows Hr _ IH]; [done |].
  rewrite filter_cons_True by done. by rewrite IH.
Qed.

(** C10: for every identifier, when the store answers the request without
    an error, [deleteBooking] and [deleteUser] return [{ success: true }]
    and the rows with that identifier are gone; in particular, when no row
    has the identifier, the store is left as it was and the result is
    still [{ success: true }]. *)
Theorem delete_reports_success env id w
  (Hup : store_fault env (requests w) = None) :
  (deleteBooking env id w).1 = Normal (Some (mkSuccess true))
  /\ (deleteUser env id w).1 = Normal (Some (mkSuccess true))
  /\ bookings (db (deleteBooking env id w).2)
     = filter (fun r => Backend.id r <> id) (bookings (db w))
  /\ users (db (deleteUser env id w).2)
     = filter (fun r => Backend.id r <> id) (users (db w))
  /\ (Forall (fun r => Backend.id r <> id) (bookings (db w)) ->
      (deleteBooking env id w).1 = Normal (Some (mkSuccess true))
      /\ db (deleteBooking env id w).2 = db w)
  /\ (Forall (fun r => Backend.id r <> id) (users (db w)) ->
      (deleteUser env id w).1 = Normal (Some (mkSuccess true))
      /\ db (deleteUser env id w).2 = db w).
Proof.
  assert (Hb : deleteBooking env id w
               = (Normal (Some (mkSuccess true)),
                  (deleteBooking_operation env id w).2)).
  { unfold deleteBooking. erewrite handleSupabaseError_first; [done |].
    unfold deleteBooking_operation, supabase, bind, ret. by rewrite Hup. }
  assert (Hu : deleteUser env id w
               = (Normal (Some (mkSuccess true)),
                  (deleteUser_operation env id w).2)).
  { unfold deleteUser. erewrite handleSupabaseError_first; [done |].
    unfold deleteUser_operation, supabase, bind, ret. by rewrite Hup. }
  rewrite Hb, Hu.
  unfold deleteBooking_operation, deleteUser_operation, supabase, bind, ret.
  rewrite Hup. cbn.
  do 4 (split; [done |]). split.
  - intros Hnone. split; [done |].
    rewrite (filter_none_matches (ColId, id) (bookings (db w)) Hnone).
    by destruct (db w).
  - intros Hnone. split; [done |].
    rewrite (filter_none_matches (ColId, id) (users (db w)) Hnone).
    by destruct (db w).
Qed.

Lemma delete_reports_success_witness :
  (deleteBooking env_ok 42 busy_world).1 = Normal (Some (mkSuccess true))
  /\ (deleteUser env_ok 42 busy_world).1 = Normal (Some (mkSuccess true))
  /\ db (deleteBooking env_ok 42 busy_world).2 = db busy_world.
Proof.
  pose proof (delete_reports_success env_ok 42 busy_world eq_refl)
    as (Hb & Hu & _ & _ & Hnone & _).
  assert (Habsent : Forall (fun r => Backend.id r <> 42%Z)
                           (bookings (db busy_world)))
    by (repeat constructor; vm_compute; discriminate).
  exact (conj Hb (conj Hu (proj2 (Hnone Habsent)))).
Defined.

(** ** Booking orchestrator: every exit *)

Import Observe MoreSamples.

#[local] Arguments Observe.calls : simpl never.
#[local] Arguments Observe.loading : simpl never.
#[local] Arguments Observe.toast_events : simpl never.
#[local] Arguments Observe.navigation_states : simpl never.
#[local] Arguments Observe.store_requests : simpl never.

Section MoreTraces.

Lemma calls_snoc t e :
  calls (t ++ [e])
  = (calls t ++ match e with
                | EvConfirmPayment _ => [CallGateway]
                | EvRequest r => [CallStore (request_table r)]
                | EvAdminNotification _ _ _ => [CallNotification]
                | _ => []
                end)%list.
Proof. unfold calls. rewrite omap_app. by destruct e. Qed.

Lemma loading_snoc t e :
  loading (t ++ [e])
  = (loading t ++ match e with EvSetIsLoading b => [b] | _ => [] end)%list.
Proof. unfold loading. rewrite omap_app. by destruct e. Qed.

Lemma toast_events_snoc t e :
  toast_events (t ++ [e])
  = (toast_events t ++ match e with
                       | EvToast title description status =>
                           [(title, description, status)]
                       | _ => []
                       end)%list.
Proof. unfold toast_events. rewrite omap_app. by destruct e. Qed.

Lemma navigation_states_snoc t e :
  navigation_states (t ++ [e])
  = (navigation_states t ++ match e with
                            | EvNavigate to state => [(to, state)]
                            | _ => []
                            end)%list.
Proof. unfold navigation_states. rewrite omap_app. by destruct e. Qed.

Lemma store_requests_snoc t e :
  store_requests (t ++ [e])
  = (store_requests t ++ match e with EvRequest r => [r] | _ => [] end)%list.
Proof. unfold store_requests. rewrite omap_app. by destruct e. Qed.

End MoreTraces.

Ltac read_more :=
  rewrite ?calls_snoc, ?loading_snoc, ?toast_events_snoc,
    ?navigation_states_snoc, ?store_requests_snoc;
  cbn [request_table]; rewrite <- ?app_assoc; cbn [app];
  rewrite ?app_nil_r.

(** X1: whatever happens in a submission, the loading flag is raised once
    at the start and lowered once at the end: the last thing a submission
    does is [setIsLoading(false)]. *)
Theorem loading_flag_is_always_lowered env c w :
  loading (trace (handleBookingProcess env c w).2)
  = (loading (trace w) ++ [true; false])%list
  /\ last (trace (handleBookingProcess env c w).2)
     = Some (EvSetIsLoading false).
Proof.
  walk env c w ltac:(split; [by read_more | by rewrite last_snoc]).
Qed.

(** X2: the calls that leave the browser in one submission are an initial
    part of: gateway, insert into services, insert into bookings,
    notification.  Nothing is stored before the payment is confirmed, and
    nothing is notified before both rows are stored. *)
Theorem calls_follow_the_pipeline env c w :
  exists made,
    calls (trace (handleBookingProcess env c w).2)
    = (calls (trace w) ++ made)%list
    /\ made `prefix_of`
         [CallGateway; CallStore Services; CallStore Bookings;
          CallNotification].
Proof.
  walk env c w ltac:(
    read_more; eexists; split;
    [ first [ reflexivity | symmetry; apply app_nil_r ]
    | by eexists ]).
Qed.

(** X3: a visitor who is not signed in, outside test mode, is sent to
    [/login] (with the page to come back to) and nothing else happens: no
    call leaves the browser, no toast is shown, no key is drawn, the store
    is left alone. *)
Theorem visitors_are_sent_to_login env c w o w'
  (Hsession : session c = None) (Htest : isTestMode c = false)
  (Hrun : handleBookingProcess env c w = (o, w')) :
  o = Normal RedirectedToLogin
  /\ navigation_states (trace w')
     = (navigation_states (trace w) ++ [("/login", FromPage "/booking")])%list
  /\ calls (trace w') = calls (trace w)
  /\ toast_events (trace w') = toast_events (trace w)
  /\ uuids_drawn w' = uuids_drawn w
  /\ db w' = db w.
Proof.
  revert Hrun.
  walk env c w ltac:(
    intros Hrun; simplify_eq; cbn [db uuids_drawn trace];
    repeat split; by read_more).
Qed.

Lemma visitors_are_sent_to_login_witness :
  let r := handleBookingProcess env_ok visitor empty_world in
  r.1 = Normal RedirectedToLogin
  /\ navigation_states (trace r.2) = [("/login", FromPage "/booking")]
  /\ calls (trace r.2) = []
  /\ toast_events (trace r.2) = []
  /\ uuids_drawn r.2 = 0
  /\ db r.2 = db empty_world.
Proof.
  exact (visitors_are_sent_to_login env_ok visitor empty_world _ _
           eq_refl eq_refl (run_pair _ _)).
Defined.

(** X4: when Stripe or its elements have not been initialised, a submission
    that passed the login check fails with "Stripe has not been
    initialized" before any call leaves the browser; the message is shown
    in the failure toast and the store is left alone. *)
Theorem stripe_must_be_initialised env c w o w'
  (Hauth : is_Some (session c) \/ isTestMode c = true)
  (Hmissing : stripe c = false \/ elements c = false)
  (Hrun : handleBookingProcess env c w = (o, w')) :
  o = Normal (Failed (Error "Stripe has not been initialized"))
  /\ calls (trace w') = calls (trace w)
  /\ toast_events (trace w')
     = (toast_events (trace w)
        ++ [("Booking Failed", [VStr "Stripe has not been initialized"],
             "error")])%list
  /\ navigation_states (trace w') = navigation_states (trace w)
  /\ db w' = db w.
Proof.
  revert Hrun.
  walk env c w ltac:(
    intros Hrun;
    first
      [ by destruct Hauth as [[? ?] | ?]
      | by destruct Hmissing
      | simplify_eq; cbn [db trace]; repeat split; by read_more ]).
Qed.

Lemma stripe_must_be_initialised_witness :
  let r := handleBookingProcess env_ok early_customer empty_world in
  r.1 = Normal (Failed (Error "Stripe has not been initialized"))
  /\ calls (trace r.2) = []
  /\ toast_events (trace r.2)
     = [("Booking Failed", [VStr "Stripe has not been initialized"], "error")]
  /\ navigation_states (trace r.2) = []
  /\ db r.2 = db empty_world.
Proof.
  exact (stripe_must_be_initialised env_ok early_customer empty_world _ _
           (or_introl (ex_intro _ _ eq_refl)) (or_introl eq_refl)
           (run_pair _ _)).
Defined.

(** X5: the payment is confirmed before anything is stored.  When the
    insert into [services] then fails, the submission fails with the error
    object of the store, the gateway has been called, the insert into
    [bookings] and the notification are never attempted, and the store
    holds no trace of the booking. *)
Theorem charged_but_nothing_stored env c w msg o w'
  (Hauth : is_Some (session c) \/ isTestMode c = true)
  (Hstripe : stripe c = true) (Helements : elements c = true)
  (Hpaid : confirm_reply env = None)
  (Hservice : store_fault env (requests w) = Some msg)
  (Hrun : handleBookingProcess env c w = (o, w')) :
  o = Normal (Failed (PostgrestError msg))
  /\ calls (trace w')
     = (calls (trace w) ++ [CallGateway; CallStore Services])%list
  /\ charge_attempts (trace w') = S (charge_attempts (trace w))
  /\ db w' = db w.
Proof.
  revert Hrun.
  walk env c w ltac:(
    intros Hrun;
    first
      [ by destruct Hauth as [[? ?] | ?]
      | by simplify_eq
      | simplify_eq; cbn [db trace]; repeat split;
        first [ by read_more | read_trace; lia ] ]).
Qed.

Lemma charged_but_nothing_stored_witness :
  let r := handleBookingProcess (env_flaky 1) customer empty_world in
  r.1 = Normal (Failed (PostgrestError "connection reset"))
  /\ calls (trace r.2) = [CallGateway; CallStore Services]
  /\ charge_attempts (trace r.2) = 1
  /\ db r.2 = db empty_world.
Proof.
  exact (charged_but_nothing_stored (env_flaky 1) customer empty_world
           "connection reset" _ _
           (or_introl (ex_intro _ _ eq_refl)) eq_refl eq_refl eq_refl eq_refl
           (run_pair _ _)).
Defined.

(** X6: the two inserts are not undone together.  When the insert into
    [services] is answered and the insert into [bookings] fails, the
    submission fails with the error object of the store, the Service row
    stays in the store without a Booking row, and no notification is
    sent. *)
Theorem failed_booking_leaves_service_row env c w msg o w'
  (Hauth : is_Some (session c) \/ isTestMode c = true)
  (Hstripe : stripe c = true) (Helements : elements c = true)
  (Hpaid : confirm_reply env = None)
  (Hservice : store_fault env (requests w) = None)
  (Hbooking : store_fault env (S (requests w)) = Some msg)
  (Hrun : handleBookingProcess env c w = (o, w')) :
  o = Normal (Failed (PostgrestError msg))
  /\ (exists s,
        services (db w') = (services (db w) ++ [s])%list
        /\ id s = next_id w
        /\ cols s !! "dynamic_key"
           = Some (VStr (uuid_at env (uuids_drawn w))))
  /\ bookings (db w') = bookings (db w)
  /\ users (db w') = users (db w)
  /\ calls (trace w')
     = (calls (trace w)
        ++ [CallGateway; CallStore Services; CallStore Bookings])%list.
Proof.
  revert Hrun.
  walk env c w ltac:(
    intros Hrun;
    first
      [ by destruct Hauth as [[? ?] | ?]
      | by simplify_eq
      | simplify_eq; cbn [db trace services bookings users];
        split; [done |];
        split; [eexists; repeat split; by lookup_spread |];
        repeat split; by read_more ]).
Qed.

Lemma failed_booking_leaves_service_row_witness :
  let r := handleBookingProcess env_second_fails customer empty_world in
  r.1 = Normal (Failed (PostgrestError "insert refused"))
  /\ (exists s,
        services (db r.2) = (services (db empty_world) ++ [s])%list
        /\ id s = next_id empty_world
        /\ cols s !! "dynamic_key"
           = Some (VStr (uuid_at env_second_fails
                                 (uuids_drawn empty_world))))
  /\ bookings (db r.2) = bookings (db empty_world)
  /\ users (db r.2) = users (db empty_world)
  /\ calls (trace r.2)
     = [CallGateway; CallStore Services; CallStore Bookings].
Proof.
  exact (failed_booking_leaves_service_row env_second_fails customer
           empty_world "insert refused" _ _
           (or_introl (ex_intro _ _ eq_refl)) eq_refl eq_refl eq_refl
           eq_refl eq_refl (run_pair _ _)).
Defined.

Lemma exit_decides_the_display env c w o w'
  (Hrun : handleBookingProcess env c w = (o, w')) :
  toasts (trace w')
  = (toasts (trace w)
     ++ match o with
        | Normal Confirmed =>
            [(if isTestMode c then "Test Booking Successful"
              else "Booking Successful", "success")]
        | Normal (Failed _) => [("Booking Failed", "error")]
        | _ => []
        end)%list
  /\ navigations (trace w')
     = (navigations (trace w)
        ++ match o with
           | Normal Confirmed => ["/confirmation"]
           | Normal RedirectedToLogin => ["/login"]
           | _ => []
           end)%list
  /\ console_errors (trace w')
     = (console_errors (trace w)
        ++ match o with
           | Normal (Failed e) => [("Booking error:", e)]
           | _ => []
           end)%list
  /\ (o = Normal Confirmed \/ o = Normal RedirectedToLogin
      \/ exists e, o = Normal (Failed e)).
Proof.
  revert Hrun.
  walk env c w ltac:(
    intros Hrun; simplify_eq; cbn [trace];
    repeat split; try (by read_trace); eauto).
Qed.

(** X7: what the user is shown is decided by the exit alone.  A confirmed
    submission shows one success toast and goes to [/confirmation]; a
    failed one logs the error, shows one "Booking Failed" toast and goes
    nowhere; a redirected one shows no toast and goes to [/login].  The
    function itself never throws and is never stopped by validation. *)
Theorem what_the_user_sees env c w :
  let o := (handleBookingProcess env c w).1 in
  let w' := (handleBookingProcess env c w).2 in
  toasts (trace w')
  = (toasts (trace w)
     ++ match o with
        | Normal Confirmed =>
            [(if isTestMode c then "Test Booking Successful"
              else "Booking Successful", "success")]
        | Normal (Failed _) => [("Booking Failed", "error")]
        | _ => []
        end)%list
  /\ navigations (trace w')
     = (navigations (trace w)
        ++ match o with
           | Normal Confirmed => ["/confirmation"]
           | Normal RedirectedToLogin => ["/login"]
           | _ => []
           end)%list
  /\ console_errors (trace w')
     = (console_errors (trace w)
        ++ match o with
           | Normal (Failed e) => [("Booking error:", e)]
           | _ => []
           end)%list
  /\ (o = Normal Confirmed \/ o = Normal RedirectedToLogin
      \/ exists e, o = Normal (Failed e)).
Proof.
  intros o w'. exact (exit_decides_the_display env c w o w' (run_pair _ _)).
Qed.

(** X8: the failure toast shows the message of the error, and the text
    "An unexpected error occurred" when the error has an empty message. *)
Theorem failure_toast_shows_the_message env c w e w'
  (Hrun : handleBookingProcess env c w = (Normal (Failed e), w')) :
  toast_events (trace w')
  = (toast_events (trace w)
     ++ [("Booking Failed",
          [VStr (if String.eqb (message e) ""
                 then "An unexpected error occurred" else message e)],
          "error")])%list.
Proof.
  revert Hrun.
  walk env c w ltac:(
    intros Hrun; simplify_eq; cbn [trace]; by read_more).
Qed.

Lemma failure_toast_shows_the_message_witness :
  let r := handleBookingProcess env_declined_silently customer empty_world in
  r.1 = Normal (Failed (Error ""))
  /\ toast_events (trace r.2)
     = [("Booking Failed", [VStr "An unexpected error occurred"], "error")].
Proof.
  exact (conj eq_refl
           (failure_toast_shows_the_message env_declined_silently customer
              empty_world (Error "") _ (run_pair _ _))).
Defined.

(** X9: the confirmation page is handed exactly the object that was sent to
    the store: in a confirmed submission the state of the navigation is the
    columns of the new booking row together with the test-mode flag, the
    last request to the store is the insert of that object, and its
    [serviceNumber] is the [service_number] of the new service row. *)
Theorem confirmation_gets_the_stored_booking env c w w'
  (Hrun : handleBookingProcess env c w = (Normal Confirmed, w')) :
  exists s b,
    services (db w') = (services (db w) ++ [s])%list
    /\ bookings (db w') = (bookings (db w) ++ [b])%list
    /\ navigation_states (trace w')
       = (navigation_states (trace w)
          ++ [("/confirmation", BookingState (cols b) (isTestMode c))])%list
    /\ last (store_requests (trace w'))
       = Some (Insert Bookings [cols b] None)
    /\ cols b !! "serviceNumber" = cols s !! "service_number"
    /\ cols s !! "service_number" = Some (VStr (number_of env (id s))).
Proof.
  revert Hrun.
  walk env c w ltac:(intros Hrun; simplify_eq).
  all: intros Hrun; simplify_eq; cbn [db trace services bookings].
  all: eexists _, _; split; [done |]; split; [done |].
  all: split; [by read_more |].
  all: split; [read_more; by rewrite last_app |].
  all: split; by lookup_spread.
Qed.

Lemma confirmation_gets_the_stored_booking_witness :
  let r := handleBookingProcess env_ok customer empty_world in
  exists s b,
    services (db r.2) = (services (db empty_world) ++ [s])%list
    /\ bookings (db r.2) = (bookings (db empty_world) ++ [b])%list
    /\ navigation_states (trace r.2)
       = (navigation_states (trace empty_world)
          ++ [("/confirmation", BookingState (cols b) (isTestMode customer))])%list
    /\ last (store_requests (trace r.2))
       = Some (Insert Bookings [cols b] None)
    /\ cols b !! "serviceNumber" = cols s !! "service_number"
    /\ cols s !! "service_number" = Some (VStr (number_of env_ok (id s))).
Proof.
  exact (confirmation_gets_the_stored_booking env_ok customer empty_world
           (handleBookingProcess env_ok customer empty_world).2 eq_refl).
Defined.



(** The shape of a confirmed submission. *)
Lemma confirmed_run env c w w'
  (Hrun : handleBookingProcess env c w = (Normal Confirmed, w')) :
  exists s b,
    services (db w') = (services (db w) ++ [s])%list
    /\ bookings (db w') = (bookings (db w) ++ [b])%list
    /\ users (db w') = users (db w)
    /\ id s = next_id w /\ id b = (next_id w + 1)%Z
    /\ next_id w' = (next_id w + 2)%Z
    /\ uuids_drawn w' = S (uuids_drawn w)
    /\ cols s !! "dynamic_key" = Some (VStr (uuid_at env (uuids_drawn w)))
    /\ cols b !! "dynamicKey" = Some (VStr (uuid_at env (uuids_drawn w))).
Proof.
  revert Hrun.
  walk env c w ltac:(intros Hrun; simplify_eq).
  all: intros Hrun; simplify_eq;
    cbn [db services bookings users next_id uuids_drawn].
  all: eexists _, _; do 3 (split; [done |]).
  all: split; [done |]; split; [done |]; split; [lia |]; split; [done |].
  all: split; by lookup_spread.
Qed.

(** X11: the key drawn for a submission does not make it idempotent.  When
    the same form is submitted again after a confirmed submission and is
    confirmed again, the store holds a second Service row and a second
    Booking row, with fresh identifiers, and the second pair carries the
    next key [uuidv4] draws, not the key of the first. *)
Theorem resubmission_creates_a_second_booking env c w w1 w2
  (Hfirst : handleBookingProcess env c w = (Normal Confirmed, w1))
  (Hagain : handleBookingProcess env c w1 = (Normal Confirmed, w2)) :
  exists s1 b1 s2 b2,
    services (db w2) = (services (db w) ++ [s1; s2])%list
    /\ bookings (db w2) = (bookings (db w) ++ [b1; b2])%list
    /\ id s1 <> id s2 /\ id b1 <> id b2
    /\ cols b1 !! "dynamicKey" = Some (VStr (uuid_at env (uuids_drawn w)))
    /\ cols b2 !! "dynamicKey"
       = Some (VStr (uuid_at env (S (uuids_drawn w))))
    /\ cols s1 !! "dynamic_key" = cols b1 !! "dynamicKey"
    /\ cols s2 !! "dynamic_key" = cols b2 !! "dynamicKey".
Proof.
  destruct (confirmed_run env c w w1 Hfirst)
    as (s1 & b1 & Hs1 & Hb1 & _ & Hids1 & Hidb1 & Hnext1 & Hdrawn1
        & Hks1 & Hkb1).
  destruct (confirmed_run env c w1 w2 Hagain)
    as (s2 & b2 & Hs2 & Hb2 & _ & Hids2 & Hidb2 & _ & _ & Hks2 & Hkb2).
  exists s1, b1, s2, b2.
  rewrite Hs2, Hs1, Hb2, Hb1, <- !app_assoc.
  rewrite Hdrawn1 in Hks2, Hkb2.
  repeat split; try done; try congruence; lia.
Qed.

Lemma resubmission_creates_a_second_booking_witness :
  let w1 := (handleBookingProcess env_ok customer empty_world).2 in
  let w2 := (handleBookingProcess env_ok customer w1).2 in
  exists s1 b1 s2 b2,
    services (db w2) = (services (db empty_world) ++ [s1; s2])%list
    /\ bookings (db w2) = (bookings (db empty_world) ++ [b1; b2])%list
    /\ id s1 <> id s2 /\ id b1 <> id b2
    /\ cols b1 !! "dynamicKey"
       = Some (VStr (uuid_at env_ok (uuids_drawn empty_world)))
    /\ cols b2 !! "dynamicKey"
       = Some (VStr (uuid_at env_ok (S (uuids_drawn empty_world))))
    /\ cols s1 !! "dynamic_key" = cols b1 !! "dynamicKey"
    /\ cols s2 !! "dynamic_key" = cols b2 !! "dynamicKey".
Proof.
  intros w1 w2.
  assert (H1 : handleBookingProcess env_ok customer empty_world
               = (Normal Confirmed, w1)) by (vm_compute; reflexivity).
  assert (H2 : handleBookingProcess env_ok customer w1
               = (Normal Confirmed, w2)) by (vm_compute; reflexivity).
  exact (resubmission_creates_a_second_booking env_ok customer empty_world
           w1 w2 H1 H2).
Defined.

(** X12: the Service row is filed under the identifier of the signed-in
    user, and under "test_user" when there is no session, no user in the
    session, or a user with an empty identifier. *)
Theorem service_row_names_the_user env c w o w' s
  (Hrun : handleBookingProcess env c w = (o, w'))
  (Hservice : services (db w') = (services (db w) ++ [s])%list) :
  cols s !! "user_id"
  = Some (VStr match session c with
               | Some (mkSession (Some (mkUser uid))) =>
                   if String.eqb uid "" then "test_user" else uid
               | _ => "test_user"
               end).
Proof.
  assert (Hid : session_user_id (session c)
                = match session c with
                  | Some (mkSession (Some (mkUser uid))) =>
                      if String.eqb uid "" then "test_user" else uid
                  | _ => "test_user"
                  end)
    by (by destruct (session c) as [[[[uid]|]]|]).
  rewrite <- Hid. clear Hid. revert Hrun Hservice.
  walk env c w ltac:(
    intros Hrun; simplify_eq; cbn [db services];
    intros Hservice;
    first
      [ by apply snoc_neq in Hservice
      | apply app_inv_head in Hservice; simplify_eq; by lookup_spread ]).
Qed.

Lemma service_row_names_the_user_witness :
  let r := handleBookingProcess env_ok tester empty_world in
  let s := default (mkRow 0 0 ∅) (head (services (db r.2))) in
  services (db r.2) = [s]
  /\ cols s !! "user_id" = Some (VStr "test_user").
Proof.
  intros r s.
  assert (Hs : services (db r.2) = (services (db empty_world) ++ [s])%list)
    by (vm_compute; reflexivity).
  exact (conj Hs
           (service_row_names_the_user env_ok tester empty_world _ _ s
              (run_pair _ _) Hs)).
Defined.

(** ** Admin query layer: more on the retry policy *)

Import RetryRhythm.

#[local] Arguments RetryRhythm.rhythm : simpl never.

Section RetryMore.
Context {A : Type} (operation : M A) (entityName : string).

(** A second attempt that returns ends the loop. *)
Lemma handleSupabaseError_second w x1 w1 v w2 :
  operation w = (Throw x1, w1) ->
  operation (backed_off entityName 1 x1 w1) = (Normal v, w2) ->
  handleSupabaseError operation entityName w = (Normal (Some v), w2).
Proof.
  intros H1 H2. rewrite handleSupabaseError_unfold.
  rewrite retry_loop_step, H1 by (unfold maxRetries; lia).
  case_decide as Hd; [by unfold maxRetries in Hd |]; clear Hd.
  rewrite retry_loop_step, H2 by (unfold maxRetries; lia). done.
Qed.


(** An operation that leaves the store alone is still leaving it alone
    when it is retried. *)
Lemma retries_keep_the_store w :
  (forall w0, db (operation w0).2 = db w0) ->
  db (handleSupabaseError operation entityName w).2 = db w.
Proof.
  intros Hkeep. rewrite handleSupabaseError_unfold.
  rewrite retry_loop_step by (unfold maxRetries; lia).
  pose proof (Hkeep w) as H1.
  destruct (operation w) as [[v|x1] w1]; cbn [snd] in *; [done |].
  case_decide as Hd; [by unfold maxRetries in Hd |]; clear Hd.
  rewrite retry_loop_step by (unfold maxRetries; lia).
  pose proof (Hkeep (backed_off entityName 1 x1 w1)) as H2.
  destruct (backed_off_frame entityName 1 x1 w1) as (Hb1 & _).
  destruct (operation _) as [[v|x2] w2]; cbn [snd] in *;
    [by rewrite H2, Hb1 |].
  case_decide as Hd; [by unfold maxRetries in Hd |]; clear Hd.
  rewrite retry_loop_step by (unfold maxRetries; lia).
  pose proof (Hkeep (backed_off entityName 2 x2 w2)) as H3.
  destruct (backed_off_frame entityName 2 x2 w2) as (Hb2 & _).
  destruct (operation _) as [[v|x3] w3]; cbn [snd] in *;
    [by rewrite H3, Hb2, H2, Hb1 |].
  case_decide as Hd; [| by unfold maxRetries in Hd].
  cbn [snd emit db]. by rewrite H3, Hb2, H2, Hb1.
Qed.

(** The first attempt that is answered settles the call. *)
Lemma settled_intro env prefix w :
  fails_with env operation prefix ->
  succeeds env operation ->
  leading_failures env w < 3 ->
  settled_after (leading_failures env w) operation
    (handleSupabaseError operation entityName) w.
Proof.
  intros Hfail Hok. unfold leading_failures.
  destruct (store_fault env (requests w)) as [e1|] eqn:H1.
  - destruct (Hfail w e1 H1) as (w1 & Hop1 & Hdb1 & Hreq1 & _ & Hbeat1).
    destruct (backed_off_frame entityName 1 (Error (prefix ++ e1)) w1)
      as (Hdb1' & Hreq1' & _ & Hbeat1').
    set (v1 := backed_off entityName 1 (Error (prefix ++ e1)) w1) in *.
    destruct (store_fault env (S (requests w))) as [e2|] eqn:H2.
    + assert (Hf2 : store_fault env (requests v1) = Some e2)
        by (by rewrite Hreq1', Hreq1).
      destruct (Hfail v1 e2 Hf2) as (w2 & Hop2 & Hdb2 & Hreq2 & _ & Hbeat2).
      destruct (backed_off_frame entityName 2 (Error (prefix ++ e2)) w2)
        as (Hdb2' & Hreq2' & _ & Hbeat2').
      set (v2 := backed_off entityName 2 (Error (prefix ++ e2)) w2) in *.
      destruct (store_fault env (S (S (requests w)))) as [e3|] eqn:H3;
        [lia |]. intros _.
      assert (Hf3 : store_fault env (requests v2) = None) by congruence.
      destruct (Hok v2 Hf3) as (v & w3 & Hop3 & Hbeat3).
      exists v2, v, w3. split; [congruence |].
      split; [rewrite Hbeat2', Hbeat2, Hbeat1', Hbeat1, <- !app_assoc; done |].
      split; [done |]. split; [| done].
      rewrite (handleSupabaseError_third operation entityName
                 w _ w1 _ w2 Hop1 Hop2).
      fold v2. by rewrite Hop3.
    + intros _.
      assert (Hf2 : store_fault env (requests v1) = None)
        by (by rewrite Hreq1', Hreq1).
      destruct (Hok v1 Hf2) as (v & w2 & Hop2 & Hbeat2).
      exists v1, v, w2. split; [congruence |].
      split; [by rewrite Hbeat1', Hbeat1, <- !app_assoc |].
      split; [done |]. split; [| done].
      by apply (handleSupabaseError_second w (Error (prefix ++ e1)) w1).
  - intros _. destruct (Hok w H1) as (v & w1 & Hop1 & Hbeat1).
    exists w, v, w1. split; [done |]. split; [by rewrite app_nil_r |].
    split; [done |]. split; [| done].
    by apply handleSupabaseError_first.
Qed.

End RetryMore.

(** X14: for each of the six operations, when one of the first three
    requests is answered, the first request that is answered settles the
    call: the operation returns what that attempt returned, the failed
    attempts before it were each followed by a pause of 1000 ms times
    their rank, and no attempt or pause follows it.  With no failure at
    all there is a single request and no pause. *)
Theorem first_answer_settles_the_call env w
  (Hanswered : leading_failures env w < 3) :
  let n := leading_failures env w in
  settled_after n (getUsers_operation env) (getUsers env) w
  /\ (forall page limit,
        settled_after n
          (getBookings_operation env (default 1%Z page) (default 10%Z limit))
          (getBookings env page limit) w)
  /\ (forall bookingData,
        settled_after n (createBooking_operation env bookingData)
                      (createBooking env bookingData) w)
  /\ (forall id bookingData,
        settled_after n (updateBooking_operation env id bookingData)
                      (updateBooking env id bookingData) w)
  /\ (forall id,
        settled_after n (deleteBooking_operation env id)
                      (deleteBooking env id) w)
  /\ (forall id,
        settled_after n (deleteUser_operation env id) (deleteUser env id) w).
Proof.
  intros n. repeat split; intros; eapply settled_intro; eauto with admin.
Qed.

Lemma first_answer_settles_the_call_witness :
  settled_after 1 (getUsers_operation (env_flaky 1)) (getUsers (env_flaky 1))
                empty_world
  /\ (forall id,
        settled_after 0 (deleteUser_operation env_ok id)
                      (deleteUser env_ok id) empty_world).
Proof.
  pose proof (first_answer_settles_the_call (env_flaky 1) empty_world
                ltac:(vm_compute; lia)) as (Husers & _).
  pose proof (first_answer_settles_the_call env_ok empty_world
                ltac:(vm_compute; lia)) as (_ & _ & _ & _ & _ & Hdelete).
  exact (conj Husers Hdelete).
Defined.

Section AttemptsBounded.
Context {A : Type} (operation : M A) (entityName : string).

Lemma attempts_bounded env prefix w :
  fails_with env operation prefix ->
  succeeds env operation ->
  beats (trace (handleSupabaseError operation entityName w).2)
  = (beats (trace w) ++ rhythm (leading_failures env w `min` 2)
     ++ [Attempt])%list.
Proof.
  intros Hfail Hok.
  destruct (decide (leading_failures env w < 3)) as [Hlt|Hge].
  - destruct (settled_intro operation entityName env prefix w Hfail Hok Hlt)
      as (w2 & v & w3 & _ & Hb2 & _ & Hrun & Hb3).
    rewrite Hrun. cbn [snd]. rewrite Hb3, Hb2, <- app_assoc.
    by rewrite Nat.min_l by lia.
  - revert Hge. unfold leading_failures.
    destruct (store_fault env (requests w)) as [e1|] eqn:H1; [| lia].
    destruct (store_fault env (S (requests w))) as [e2|] eqn:H2; [| lia].
    destruct (store_fault env (S (S (requests w)))) as [e3|] eqn:H3; [| lia].
    intros _.
    destruct (retried_intro operation entityName env prefix w e1 e2
                Hfail Hok H1 H2) as (w2 & _ & _ & _ & Hb2 & Hthird).
    rewrite H3 in Hthird. destruct Hthird as (w3 & Hrun & _ & Hb3).
    rewrite Hrun. cbn [snd]. by rewrite Hb3, Hb2, <- app_assoc.
Qed.

End AttemptsBounded.

(** X15: none of the six operations ever sends more than three requests,
    and none pauses after its last request: the requests and pauses of a
    call are the failed attempts it met, two at most, each followed by its
    pause (1000 ms, then 2000 ms), and one last attempt. *)
Theorem at_most_three_requests env w :
  let shape := (beats (trace w)
                ++ rhythm (leading_failures env w `min` 2)
                ++ [Attempt])%list in
  beats (trace (getUsers env w).2) = shape
  /\ (forall page limit, beats (trace (getBookings env page limit w).2) = shape)
  /\ (forall bookingData,
        beats (trace (createBooking env bookingData w).2) = shape)
  /\ (forall id bookingData,
        beats (trace (updateBooking env id bookingData w).2) = shape)
  /\ (forall id, beats (trace (deleteBooking env id w).2) = shape)
  /\ (forall id, beats (trace (deleteUser env id w).2) = shape).
Proof.
  intros shape. repeat split; intros;
    eapply attempts_bounded; eauto with admin.
Qed.

(** X16: reading never writes.  [getUsers] and [getBookings] leave the
    store as it was, whether their requests fail or not and however often
    they are retried. *)
Theorem reads_leave_the_store_alone env w :
  db (getUsers env w).2 = db w
  /\ (forall page limit, db (getBookings env page limit w).2 = db w).
Proof.
  split; [| intros page limit]; apply retries_keep_the_store; intros w0.
  - unfold getUsers_operation, supabase, bind, ret, throw.
    by destruct (store_fault env (requests w0)).
  - unfold getBookings_operation, supabase, bind, ret, throw, effect.
    by destruct (store_fault env (requests w0)).
Qed.

(** ** Admin query layer: single rows *)

Section SingleRows.

Lemma patch_none_matches (eq : Column * Z) (values : gmap string Val)
  (rows : list Row) :
  Forall (fun r => ~ matches eq r) rows ->
  (fun r => if decide (matches eq r)
            then mkRow (id r) (created_at r) (values ∪ cols r) else r)
    <$> rows = rows
  /\ filter (matches eq) rows = [].
Proof.
  induction 1 as [|r rows Hr _ [IH1 IH2]]; [done |].
  rewrite fmap_cons, IH1, filter_cons_False, IH2 by done.
  by rewrite decide_False.
Qed.

End SingleRows.

(** X17: [updateBooking] of an identifier that no booking has is not an
    error: when the store answers, the operation returns [undefined] (the
    first element of an empty array) and the store is left as it was. *)
Theorem update_of_missing_booking_is_silent env id bookingData w
  (Hup : store_fault env (requests w) = None)
  (Hmissing : Forall (fun r => Backend.id r <> id) (bookings (db w))) :
  (updateBooking env id bookingData w).1 = Normal (Some None)
  /\ db (updateBooking env id bookingData w).2 = db w.
Proof.
  destruct (patch_none_matches (ColId, id) bookingData (bookings (db w))
              Hmissing) as [Hpatch Hnone].
  unfold updateBooking.
  erewrite handleSupabaseError_first.
  2: { unfold updateBooking_operation, supabase, bind, ret, first_of.
       rewrite Hup. cbn. rewrite Hpatch, Hnone. reflexivity. }
  cbn. split; [done |]. by destruct (db w).
Qed.

Lemma update_of_missing_booking_is_silent_witness :
  (updateBooking env_ok 42 (<["status" := VStr "paid"]> ∅) busy_world).1
  = Normal (Some None)
  /\ db (updateBooking env_ok 42 (<["status" := VStr "paid"]> ∅)
                       busy_world).2
     = db busy_world.
Proof.
  assert (Habsent : Forall (fun r => Backend.id r <> 42%Z)
                           (bookings (db busy_world)))
    by (repeat constructor; vm_compute; discriminate).
  exact (update_of_missing_booking_is_silent env_ok 42 _ busy_world
           eq_refl Habsent).
Defined.





(** ** Admin query layer: more on paging *)

Lemma getBookings_answered env page limit w :
  store_fault env (requests w) = None ->
  (getBookings env (Some page) (Some limit) w).1
  = Normal (Some (mkPage
       (range_slice ((page - 1) * limit) ((page - 1) * limit + limit - 1)
          (order_by (Some (ColCreatedAt, false)) (bookings (db w))))
       (Some (Z.of_nat (length (bookings (db w)))))
       (ceil_quotient (Z.of_nat (length (bookings (db w)))) limit))).
Proof.
  intros Hup. unfold getBookings.
  erewrite handleSupabaseError_first; [done |].
  unfold getBookings_operation, supabase, bind, ret. by rewrite Hup.
Qed.

(** X20: the page count agrees with the pages.  For a positive limit and a
    page number from 1 on, when the store answers, a page holds
    [min limit (count - (page - 1) * limit)] rows (none when that is
    negative): at most [limit] rows, at least one row exactly on the pages
    up to [totalPages], and [limit] rows on every page before the last. *)
Theorem pages_agree_with_the_page_count env page limit w
  (Hup : store_fault env (requests w) = None)
  (Hlimit : (0 < limit)%Z) (Hpage : (1 <= page)%Z) :
  let total := Z.of_nat (length (bookings (db w))) in
  exists rows pages,
    (getBookings env (Some page) (Some limit) w).1
    = Normal (Some (mkPage rows (Some total) (Finite pages)))
    /\ Z.of_nat (length rows)
       = Z.max 0 (Z.min limit (total - (page - 1) * limit))
    /\ (rows <> [] <-> (page <= pages)%Z)
    /\ ((page < pages)%Z -> Z.of_nat (length rows) = limit).
Proof.
  intros total. subst total.
  destruct (ceil_quotient_pages (Z.of_nat (length (bookings (db w)))) limit
              Hlimit) as (pages & Hpages & Hbound).
  eexists _, pages. rewrite getBookings_answered, Hpages by done.
  split; [done |].
  assert (Hlen : Z.of_nat (length
            (range_slice ((page - 1) * limit) ((page - 1) * limit + limit - 1)
               (order_by (Some (ColCreatedAt, false)) (bookings (db w)))))
          = Z.max 0 (Z.min limit (Z.of_nat (length (bookings (db w)))
                                  - (page - 1) * limit))).
  { unfold range_slice. rewrite length_take, length_drop.
    rewrite (Permutation_length (order_by_permutation _ _)). nia. }
  split; [done |]. split.
  - rewrite <- length_zero_iff_nil. split; intros H; nia.
  - intros Hlt. nia.
Qed.

Lemma pages_agree_with_the_page_count_witness :
  exists rows pages,
    (getBookings env_ok (Some 2%Z) (Some 2%Z) busy_world).1
    = Normal (Some (mkPage rows (Some 3%Z) (Finite pages)))
    /\ Z.of_nat (length rows) = 1%Z
    /\ (rows <> [] <-> (2 <= pages)%Z)
    /\ ((2 < pages)%Z -> Z.of_nat (length rows) = 2%Z).
Proof.
  exact (pages_agree_with_the_page_count env_ok 2 2 busy_world eq_refl
           ltac:(lia) ltac:(lia)).
Defined.

(** X21: a limit of zero is not refused.  When the store answers,
    [getBookings] with limit 0 returns no rows, the number of bookings as
    [count], and a [totalPages] that is not a number of pages: [NaN] when
    there is no booking, [Infinity] when there are some. *)
Theorem limit_zero_gives_no_page_count env page w
  (Hup : store_fault env (requests w) = None) :
  (getBookings env (Some page) (Some 0%Z) w).1
  = Normal (Some (mkPage []
       (Some (Z.of_nat (length (bookings (db w)))))
       (if decide (bookings (db w) = []) then NaN else Infinity))).
Proof.
  rewrite getBookings_answered by done.
  unfold range_slice, ceil_quotient.
  replace (Z.to_nat _) with 0 by lia. rewrite take_0.
  rewrite decide_True by done.
  destruct (bookings (db w)) as [|r rows]; cbn [length].
  - by rewrite !decide_True.
  - rewrite (decide_False (P := _ :: _ = [])) by done.
    repeat case_decide; first [ done | lia ].
Qed.

Lemma limit_zero_gives_no_page_count_witness :
  (getBookings env_ok (Some 1%Z) (Some 0%Z) busy_world).1
  = Normal (Some (mkPage [] (Some 3%Z) Infinity))
  /\ (getBookings env_ok (Some 1%Z) (Some 0%Z) empty_world).1
     = Normal (Some (mkPage [] (Some 0%Z) NaN)).
Proof.
  exact (conj (limit_zero_gives_no_page_count env_ok 1 busy_world eq_refl)
              (limit_zero_gives_no_page_count env_ok 1 empty_world eq_refl)).
Defined.

(** ** The form state of the booking page *)

Section FormUpdates.
Import FormState.

(** X22: edits made through [handleChange] and [handleDateTimeChange] in
    one render all take effect, but each map callback puts back the form
    of the render it was built in: whatever was queued before it in that
    render is lost, and when both addresses are picked in one render only
    the drop-off address is kept. *)
Theorem map_callbacks_drop_queued_edits
  (formData : gmap string Val) (queue : list Action)
  (pickup dropOff name value : string) :
  rerender formData (queue ++ [setPickupAddress formData pickup])
  = <["pickupAddress" := VStr pickup]> formData
  /\ rerender formData
       [setPickupAddress formData pickup; setDropOffAddress formData dropOff]
     !! "pickupAddress" = formData !! "pickupAddress"
  /\ rerender formData
       [setPickupAddress formData pickup; setDropOffAddress formData dropOff]
     !! "dropOffAddress" = Some (VStr dropOff)
  /\ rerender formData
       [handleChange "pickupAddress" pickup;
        handleChange "dropOffAddress" dropOff]
     = <["dropOffAddress" := VStr dropOff]>
         (<["pickupAddress" := VStr pickup]> formData)
  /\ rerender formData (queue ++ [handleChange name value])
     = <[name := VStr value]> (rerender formData queue).
Proof.
  unfold rerender. rewrite !foldl_app.
  unfold setPickupAddress, setDropOffAddress, handleChange, spread.
  cbn [foldl apply_action fst snd].
  repeat split; try done.
  - by rewrite lookup_insert_ne.
  - by rewrite lookup_insert_eq.
Qed.

End FormUpdates.

(** ** The stepped form *)

Section Stepper.
Import SteppedForm.

(** X23: the stepper never shows a step beyond 3, shows step 3 exactly
    when the vehicle model, both addresses and the service type are set,
    and filling in more never moves it back: when everything that is set
    in one state of the form is set in another, the step of the other is
    at least as far. *)
Theorem stepper_only_moves_forward
  (model model' : Val) (formData formData' : gmap string Val)
  (Hmodel : truthy model = true -> truthy model' = true)
  (Hfields : forall name,
     truthy (field name formData) = true ->
     truthy (field name formData') = true) :
  currentStep model formData <= currentStep model' formData'
  /\ currentStep model formData <= 3
  /\ (currentStep model formData = 3
      <-> truthy model = true
          /\ truthy (field "pickupAddress" formData) = true
          /\ truthy (field "dropOffAddress" formData) = true
          /\ truthy (field "serviceType" formData) = true).
Proof.
  pose proof (Hfields "pickupAddress") as Hp.
  pose proof (Hfields "dropOffAddress") as Hd.
  pose proof (Hfields "serviceType") as Hs.
  unfold currentStep.
  destruct (truthy model), (truthy (field "pickupAddress" formData)),
    (truthy (field "dropOffAddress" formData)),
    (truthy (field "serviceType" formData)); cbn;
    rewrite ?Hmodel, ?Hp, ?Hd, ?Hs by done; cbn;
    repeat split; try lia; try (intros; destruct_and?; done);
    repeat case_match; lia.
Qed.

Lemma stepper_only_moves_forward_witness :
  currentStep (VStr "") (<["pickupAddress" := VStr "123 Test St"]> ∅)
  <= currentStep (VStr "Corolla")
       (<["dropOffAddress" := VStr "456 Example Ave"]>
          (<["pickupAddress" := VStr "123 Test St"]> ∅))
  /\ currentStep (VStr "Corolla")
       (<["dropOffAddress" := VStr "456 Example Ave"]>
          (<["pickupAddress" := VStr "123 Test St"]> ∅)) = 2.
Proof.
  assert (Hfields : forall name,
     truthy (field name (<["pickupAddress" := VStr "123 Test St"]> ∅)) = true ->
     truthy (field name
               (<["dropOffAddress" := VStr "456 Example Ave"]>
                  (<["pickupAddress" := VStr "123 Test St"]> ∅))) = true).
  { intros name. unfold field.
    destruct (decide (name = "pickupAddress")) as [->|Hne]; [done |].
    by rewrite lookup_insert_ne, lookup_empty by done. }
  exact (conj (proj1 (stepper_only_moves_forward (VStr "") (VStr "Corolla")
                        _ _ (fun H => match Bool.diff_false_true H with end)
                        Hfields))
              eq_refl).
Defined.

End Stepper.

Section StepHandlers.
Import SteppedForm FormSamples.

(** X24: a submission of the stepped form that does not go through leaves
    the payment window closed.  When the form is not valid the booking hook
    is not called at all and a "Form Error" toast is shown; when the hook
    throws, the error is logged and an "Error" toast with a fixed text is
    shown -- the message of the error is not -- and the payment window and
    the form data stay as the hook left them. *)
Theorem failed_submit_keeps_the_window_closed
  (process : gmap string Val -> Ui -> Completion (gmap string Val) * Ui)
  (selectedTowTruckType : Val) (data : gmap string Val) (u u1 : Ui)
  (e : Exn)
  (Hthrows : process (spread data [("serviceType", selectedTowTruckType)]) u
             = (Throw e, u1)) :
  let after := onSubmit process true selectedTowTruckType data u in
  isPaymentWindowOpen after = isPaymentWindowOpen u1
  /\ formData after = formData u1
  /\ shown after
     = (shown u1
        ++ [("Error",
             "There was an error processing your request. Please try again.",
             "error")])%list
  /\ logged after = (logged u1 ++ [("Error processing booking:", e)])%list
  /\ navigated after = navigated u1
  /\ (forall process',
        onSubmit process' false selectedTowTruckType data u
        = mkUi (formData u) (isPaymentWindowOpen u)
               (shown u
                ++ [("Form Error",
                     "Please complete all required fields correctly.",
                     "error")])
               (navigated u) (logged u)).
Proof.
  intros after. unfold after, onSubmit. by rewrite Hthrows.
Qed.

Lemma failed_submit_keeps_the_window_closed_witness :
  let u := mkUi ∅ false [] [] [] in
  let after := onSubmit process_refuses true (VStr "Standard") ∅ u in
  isPaymentWindowOpen after = false
  /\ formData after = ∅
  /\ shown after
     = [("Error",
         "There was an error processing your request. Please try again.",
         "error")]
  /\ logged after
     = [("Error processing booking:", Error "no tow truck available")].
Proof.
  pose proof (failed_submit_keeps_the_window_closed process_refuses
                (VStr "Standard") ∅ (mkUi ∅ false [] [] []) _
                (Error "no tow truck available") eq_refl)
    as (Hwindow & Hform & Hshown & Hlogged & _).
  exact (conj Hwindow (conj Hform (conj Hshown Hlogged))).
Defined.

(** X25: when the payment window reports a failure, the booking hook is
    not called, nothing is navigated to, the window and the form data stay
    as they were, and a "Payment Error" toast shows the error of the
    report, or "Payment processing failed" when the report has none. *)
Theorem failed_payment_is_reported
  (process : gmap string Val -> Ui -> Completion (gmap string Val) * Ui)
  (paymentResult : PaymentResult) (u : Ui)
  (Hfailed : success paymentResult = false) :
  let reason := if String.eqb (error paymentResult) ""
                then "Payment processing failed"
                else error paymentResult in
  handlePaymentSubmit process paymentResult u
  = mkUi (formData u) (isPaymentWindowOpen u)
         (shown u ++ [("Payment Error", reason, "error")])
         (navigated u)
         (logged u ++ [("Error finalizing booking:", Error reason)]).
Proof.
  intros reason. unfold handlePaymentSubmit, payment_catch, show, log.
  rewrite Hfailed. cbn. unfold or_else at 1. fold reason.
  unfold or_else. unfold reason at 1.
  by destruct (String.eqb (error paymentResult) "") eqn:He; rewrite ?He;
    destruct (String.eqb _ "") eqn:Hr.
Qed.

Lemma failed_payment_is_reported_witness :
  handlePaymentSubmit process_keeps (mkPaymentResult false VUndefined "")
                      paying
  = mkUi (formData paying) true
         [("Payment Error", "Payment processing failed", "error")] []
         [("Error finalizing booking:", Error "Payment processing failed")].
Proof.
  exact (failed_payment_is_reported process_keeps
           (mkPaymentResult false VUndefined "") paying eq_refl).
Defined.

(** X26: when the payment succeeded but the booking hook then throws, the
    user is shown a "Payment Error" toast with the message of that error
    (a fixed text when it is empty), the payment window is not closed, no
    success toast is shown and nothing is navigated to. *)
Theorem paid_but_not_finalised
  (process : gmap string Val -> Ui -> Completion (gmap string Val) * Ui)
  (paymentResult : PaymentResult) (u u1 : Ui) (e : Exn)
  (Hpaid : success paymentResult = true)
  (Hthrows : process
               (spread (formData u)
                  [ ("paymentMethodId", paymentMethodId paymentResult);
                    ("paymentStatus", VStr "paid") ]) u
             = (Throw e, u1)) :
  let after := handlePaymentSubmit process paymentResult u in
  isPaymentWindowOpen after = isPaymentWindowOpen u1
  /\ navigated after = navigated u1
  /\ shown after
     = (shown u1
        ++ [("Payment Error",
             if String.eqb (message e) ""
             then "There was an error processing your payment. Please try again."
             else message e,
             "error")])%list
  /\ logged after = (logged u1 ++ [("Error finalizing booking:", e)])%list
  /\ formData after = formData u1.
Proof.
  intros after. unfold after, handlePaymentSubmit. by rewrite Hpaid, Hthrows.
Qed.

Lemma paid_but_not_finalised_witness :
  let after := handlePaymentSubmit process_refuses
                 (mkPaymentResult true (VStr "pm_1") "") paying in
  isPaymentWindowOpen after = true
  /\ navigated after = []
  /\ shown after = [("Payment Error", "no tow truck available", "error")].
Proof.
  pose proof (paid_but_not_finalised process_refuses
                (mkPaymentResult true (VStr "pm_1") "") paying _
                (Error "no tow truck available") eq_refl eq_refl)
    as (Hwindow & Hnav & Hshown & _).
  exact (conj Hwindow (conj Hnav Hshown)).
Defined.

(** X27: when the payment succeeded and the booking hook returns, the hook
    has been given the form data with [paymentStatus] "paid" and the
    payment method, the payment window is closed, one "Payment Successful"
    toast is shown, and the confirmation page is handed the form data of
    the render the handler was built in: not what the hook was given, and
    not what the hook made of the form data. *)
Theorem confirmation_gets_the_form_before_payment
  (process : gmap string Val -> Ui -> Completion (gmap string Val) * Ui)
  (paymentResult : PaymentResult) (u u1 : Ui) (result : gmap string Val)
  (Hpaid : success paymentResult = true)
  (Hreturns : process
                (spread (formData u)
                   [ ("paymentMethodId", paymentMethodId paymentResult);
                     ("paymentStatus", VStr "paid") ]) u
              = (Normal result, u1)) :
  let after := handlePaymentSubmit process paymentResult u in
  let given := spread (formData u)
                 [ ("paymentMethodId", paymentMethodId paymentResult);
                   ("paymentStatus", VStr "paid") ] in
  isPaymentWindowOpen after = false
  /\ navigated after = (navigated u1 ++ [("/confirmation", formData u)])%list
  /\ given !! "paymentStatus" = Some (VStr "paid")
  /\ given !! "paymentMethodId" = Some (paymentMethodId paymentResult)
  /\ (forall k, k <> "paymentStatus" -> k <> "paymentMethodId" ->
                given !! k = formData u !! k)
  /\ shown after
     = (shown u1
        ++ [("Payment Successful",
             "Your payment has been processed successfully.", "success")])%list
  /\ formData after = formData u1
  /\ logged after = logged u1.
Proof.
  intros after given. unfold after, given, handlePaymentSubmit.
  rewrite Hpaid, Hreturns. unfold spread. cbn [foldl fst snd].
  repeat split; try done.
  - by rewrite lookup_insert_eq.
  - by rewrite lookup_insert_ne, lookup_insert_eq.
  - intros k H1 H2. by rewrite !lookup_insert_ne.
Qed.

Lemma confirmation_gets_the_form_before_payment_witness :
  let after := handlePaymentSubmit process_keeps
                 (mkPaymentResult true (VStr "pm_1") "") paying in
  isPaymentWindowOpen after = false
  /\ navigated after = [("/confirmation", formData paying)]
  /\ formData paying !! "paymentStatus" = None
  /\ formData after !! "paymentStatus" = Some (VStr "paid").
Proof.
  pose proof (confirmation_gets_the_form_before_payment process_keeps
                (mkPaymentResult true (VStr "pm_1") "") paying _ _
                eq_refl eq_refl) as (Hwindow & Hnav & _).
  exact (conj Hwindow (conj Hnav (conj eq_refl eq_refl))).
Defined.

End StepHandlers.

(** ** The admin panel *)

Section Roles.
Import AdminPanel.

(** X28: starting from the role ['user'], the admin panel shows its tabs
    exactly when a user with a non-empty identifier is signed in and is an
    admin or a super admin, a super admin being given the super-admin role
    even if also an admin; and the effect never takes a role back when the
    session goes away: after a sign-out the role, and so the tabs, stay. *)
Theorem admin_panel_access
  (isAdmin isSuperAdmin : string -> bool)
  (session : option Session) (userRole : Role) :
  (render (checkAdminStatus isAdmin isSuperAdmin session RoleUser)
   <> NoPrivileges
   <-> exists uid,
         session ≫= user = Some (mkUser uid) /\ uid <> ""
         /\ (isAdmin uid = true \/ isSuperAdmin uid = true))
  /\ (forall uid,
        session ≫= user = Some (mkUser uid) -> uid <> "" ->
        isSuperAdmin uid = true ->
        checkAdminStatus isAdmin isSuperAdmin session userRole
        = RoleSuperAdmin)
  /\ checkAdminStatus isAdmin isSuperAdmin None userRole = userRole
  /\ render (checkAdminStatus isAdmin isSuperAdmin None
               (checkAdminStatus isAdmin isSuperAdmin session userRole))
     = render (checkAdminStatus isAdmin isSuperAdmin session userRole).
Proof.
  split; [| split; [| done]].
  - unfold checkAdminStatus.
    destruct (session ≫= user) as [[uid]|]; cbn.
    + destruct (String.eqb_spec uid "") as [->|Hne]; cbn.
      * split; [done |]. by intros (uid & [= <-] & Hne & _).
      * destruct (isSuperAdmin uid) eqn:Hs, (isAdmin uid) eqn:Ha; cbn;
          (split;
           [ intros Hr; first [ by destruct Hr | exists uid; by eauto ]
           | intros (uid' & [= <-] & _ & [H|H]);
             first [ done | congruence ] ]).
    + split; [done |]. by intros (uid & ? & _).
  - intros uid Huser Hne Hs. unfold checkAdminStatus. rewrite Huser. cbn.
    destruct (String.eqb_spec uid "") as [->|_]; [done |]. by rewrite Hs.
Qed.

End Roles.

(** ** The form schema *)

Section SchemaFacts.
Import Schema.

Lemma all_digits_Forall s :
  all_digits s = true
  <-> Forall (fun c => 48 <= nat_of_ascii c <= 57) (list_ascii_of_string s).
Proof.
  induction s as [|c s IH]; cbn; [by split; [constructor |] |].
  rewrite andb_true_iff, IH, Forall_cons. unfold is_digit.
  by rewrite bool_decide_eq_true.
Qed.

(** X29: what an accepted form guarantees.  A form the schema accepts has
    a phone number of exactly ten characters, all of them digits 0 to 9, a
    name and a licence plate of at least two characters, a brand, a model
    and a colour that are not empty, addresses of at least five
    characters, and a pickup time that is set and not before the instant
    the schema was built. *)
Theorem accepted_form_is_well_formed created v
  (Haccepted : schema created v = true) :
  String.length (phoneNumber v) = 10
  /\ Forall (fun c => 48 <= nat_of_ascii c <= 57)
            (list_ascii_of_string (phoneNumber v))
  /\ 2 <= String.length (userName v)
  /\ 2 <= String.length (licensePlate v)
  /\ vehicleBrand v <> "" /\ vehicleModel v <> "" /\ vehicleColor v <> ""
  /\ 5 <= String.length (pickupAddress v)
  /\ 5 <= String.length (dropOffAddress v)
  /\ exists t, pickupDateTime v = Some t /\ (created <= t)%Z.
Proof.
  unfold schema, ten_digits, min_length, required, date_from in Haccepted.
  rewrite !andb_true_iff, !bool_decide_eq_true, !negb_true_iff in Haccepted.
  destruct Haccepted as
    ((((((((( _ & Hname) & (Hlen & Hdigits) & _) & Hbrand) & Hmodel)
          & Hcolor) & _ & Hplate) & _ & Hpickup) & _ & Hdrop) & Hdate).
  rewrite all_digits_Forall in Hdigits.
  apply String.eqb_neq in Hbrand, Hmodel, Hcolor.
  destruct (pickupDateTime v) as [t|]; [| done].
  apply bool_decide_eq_true in Hdate.
  repeat split; try done. by exists t.
Qed.

Lemma accepted_form_is_well_formed_witness :
  String.length (phoneNumber (filled_form (Some 1000%Z))) = 10
  /\ exists t, pickupDateTime (filled_form (Some 1000%Z)) = Some t
               /\ (1000 <= t)%Z.
Proof.
  pose proof (accepted_form_is_well_formed 1000 (filled_form (Some 1000%Z))
                eq_refl) as (Hlen & _ & _ & _ & _ & _ & _ & _ & _ & Hdate).
  exact (conj Hlen Hdate).
Defined.

End SchemaFacts.
